(** * Blogger-to-Telegram sync server: a shallow embedding of the
    [POST /api/sync] handlers and of [sendToTelegram].

    The repository carries two near-identical Express servers:
    - [src/unnamed/part_000]: the Gemini-backed version, whose handler
      processes every fetched post and has no per-post [try];
    - [src/unnamed/part_001]: the version with a plain-text
      [extractMovieDetails], a cap of three posts per cycle, a per-post
      [try/catch], a Blogger error check and a text-only retry.

    Effects are modelled with a state-and-exception monad.  The state is the
    [synced_posts] table (the ledger) and a trace of observable events
    (network calls, ledger reads and writes, error logs), newest first.
    The outside world (stored settings, process environment, the Blogger
    reply, the replies of the Telegram and Gemini endpoints) is a record of
    oracles; the replies of Telegram and Gemini are indexed by the length of
    the trace at the moment of the call, so that successive calls may get
    different answers. *)

From Stdlib Require Import String Ascii List Bool ZArith Lia.
From Stdlib Require Import DecimalString.
Import ListNotations.
Open Scope string_scope.

(** ** JavaScript values *)

(** The values that flow through the handler from JSON bodies. *)
#[warnings="-register-all"]
Inductive jsval : Type :=
| JUndef
| JNull
| JBool (b : bool)
| JNum (z : Z)
| JStr (s : string)
| JObj (fields : list (string * jsval)).

(** JavaScript truthiness ([!!v]). *)
Definition truthy (v : jsval) : bool :=
  match v with
  | JUndef | JNull => false
  | JBool b => b
  | JNum z => negb (Z.eqb z 0)
  | JStr s => negb (String.eqb s EmptyString)
  | JObj _ => true
  end.

(** [a || b] on JavaScript values. *)
Definition js_or (a b : jsval) : jsval := if truthy a then a else b.

(** Property read [o.k] on a value that is not [undefined] or [null]. *)
Definition js_get (o : jsval) (k : string) : jsval :=
  match o with
  | JObj fs =>
      match find (fun kv => String.eqb (fst kv) k) fs with
      | Some (_, v) => v
      | None => JUndef
      end
  | _ => JUndef
  end.

(** String conversion performed by a template literal [`${v}`]. *)
Definition js_str (v : jsval) : string :=
  match v with
  | JUndef => "undefined"
  | JNull => "null"
  | JBool true => "true"
  | JBool false => "false"
  | JNum z => NilZero.string_of_int (Z.to_int z)
  | JStr s => s
  | JObj _ => "[object Object]"
  end.

(** An optional string field, read as a JavaScript value. *)
Definition of_opt (o : option string) : jsval :=
  match o with Some s => JStr s | None => JUndef end.

(** ** Strings used by the handler *)

Definition nl : string := String (ascii_of_nat 10) EmptyString.

(** The separator of [`${details}\n\n🔗 Download Now: ${post.url}`]. *)
Definition download_sep : string := nl ++ nl ++ "🔗 Download Now: ".

(** [/<[^>]*>/g] replaced by the empty string: every [<] that has a later [>] starts a
    tag that runs to the first such [>]; a [<] with no later [>] is kept. *)
Fixpoint strip_tags_fuel (fuel : nat) (s : string) : string :=
  match fuel with
  | O => s
  | S fuel' =>
      match s with
      | EmptyString => EmptyString
      | String c rest =>
          if Ascii.eqb c "<" then
            match String.index 0 ">" rest with
            | Some k => strip_tags_fuel fuel' (substring (S k) (String.length rest) rest)
            | None => String c (strip_tags_fuel fuel' rest)
            end
          else String c (strip_tags_fuel fuel' rest)
      end
  end.

Definition strip_tags (s : string) : string := strip_tags_fuel (String.length s) s.

(** Longest prefix of [s] none of whose characters satisfies [stop]. *)
Fixpoint take_until (stop : ascii -> bool) (s : string) : string :=
  match s with
  | EmptyString => EmptyString
  | String c rest => if stop c then EmptyString else String c (take_until stop rest)
  end.

Definition dquote : ascii := ascii_of_nat 34.
Definition is_gt (c : ascii) : bool := Ascii.eqb c ">".
Definition is_quote_or_gt (c : ascii) : bool :=
  Ascii.eqb c dquote || Ascii.eqb c ">".

(** The tail [src=Q([^Q>]+)Q] of the image pattern (Q the double-quote
    character), anchored at the start of [u]; returns the capture. *)
Definition src_match (u : string) : option string :=
  let pre := "src=" ++ String dquote EmptyString in
  if String.prefix pre u then
    let v := substring (String.length pre) (String.length u) u in
    let cap := take_until is_quote_or_gt v in
    match cap, String.get (String.length cap) v with
    | EmptyString, _ => None
    | _, Some c => if Ascii.eqb c dquote then Some cap else None
    | _, None => None
    end
  else None.

(** [[^>]+src=Q([^Q>]+)Q] anchored at the start of [t]: the greedy [[^>]+]
    tries the longest run first and backtracks down to one character. *)
Fixpoint try_lengths (j : nat) (t : string) : option string :=
  match j with
  | O => None
  | S j' =>
      match src_match (substring j (String.length t) t) with
      | Some cap => Some cap
      | None => try_lengths j' t
      end
  end.

Definition after_img_match (t : string) : option string :=
  try_lengths (String.length (take_until is_gt t)) t.

(** [content.match(/<img[^>]+src=Q([^Q>]+)Q/)] (Q the double quote), returning the first group
    of the leftmost match. *)
Fixpoint img_match (s : string) : option string :=
  match s with
  | EmptyString => None
  | String _ rest =>
      let here :=
        if String.prefix "<img" s
        then after_img_match (substring 4 (String.length s) s) else None in
      match here with
      | Some cap => Some cap
      | None => img_match rest
      end
  end.

(** ** Posts, Blogger replies, Telegram replies *)

(** A post of the Blogger [items] array.  [p_images] is [post.images]: an
    array of image objects, each given by its [url] field. *)
Record post : Type := {
  p_id : string;
  p_title : option string;
  p_content : option string;
  p_url : option string;
  p_images : option (list (option string))
}.

(** The JSON body of the Blogger reply: [data.error] and [data.items]. *)
Record blog_data : Type := {
  b_error : jsval;
  b_items : option (list post)
}.

(** A Telegram [Response]: [ok], and whether [response.json()] resolves. *)
Record tg_resp : Type := {
  tg_ok : bool;
  tg_json : bool
}.

(** The outside world seen by one request. *)
Record world : Type := {
  w_settings : list (string * option string);   (** [settings] table *)
  w_env : list (string * string);                (** [process.env] *)
  w_blogger : option (option blog_data);
    (** [None]: [fetch] rejects; [Some None]: [response.json()] rejects *)
  w_tg : nat -> option tg_resp;                  (** [None]: [fetch] rejects *)
  w_gemini : nat -> option string                (** [None]: the call throws *)
}.

(** The request body fields destructured by the handler. *)
Record request : Type := {
  r_api_key : jsval;    (** [BLOGGER_API_KEY] *)
  r_blog_id : jsval;    (** [BLOGGER_BLOG_ID] *)
  r_bot_token : jsval;  (** [TELEGRAM_BOT_TOKEN] *)
  r_chat_id : jsval     (** [TELEGRAM_CHANNEL_ID] *)
}.

(** The HTTP response: status code and JSON body. *)
Record response : Type := {
  status : Z;
  rbody : list (string * jsval)
}.

(** ** Observable events *)

Inductive event : Type :=
| EFetchBlogger (url : string)              (** GET to the Blogger API *)
| EGemini                                   (** [generateContent] call *)
| ESend (pid : string) (url : string) (text : string)
        (photo : option string) (resp : option tg_resp)
    (** POST to Telegram made while processing post [pid] *)
| ECheck (pid : string)         (** [SELECT 1 FROM synced_posts ...] *)
| EInsert (pid : string)        (** [INSERT INTO synced_posts ...] *)
| ELog (msg : string).          (** [console.error] of a caught failure *)

(** ** State-and-exception monad *)

Record state : Type := {
  ledger : list string;     (** [synced_posts.post_id] *)
  trace : list event        (** newest first *)
}.

Inductive res (A : Type) : Type :=
| Ok (a : A)
| Exc (msg : string).
Arguments Ok {A} a.
Arguments Exc {A} msg.

Definition M (A : Type) : Type := state -> res A * state.

Definition ret {A} (a : A) : M A := fun s => (Ok a, s).

Definition bind {A B} (m : M A) (k : A -> M B) : M B :=
  fun s => match m s with
           | (Ok a, s') => k a s'
           | (Exc e, s') => (Exc e, s')
           end.

Definition throw {A} (msg : string) : M A := fun s => (Exc msg, s).

(** [try { m } catch (e) { h(e) }]: effects of [m] before the throw stay. *)
Definition try_catch {A} (m : M A) (h : string -> M A) : M A :=
  fun s => match m s with
           | (Ok a, s') => (Ok a, s')
           | (Exc e, s') => h e s'
           end.

Notation "x <- m ;; k" := (bind m (fun x => k))
  (at level 61, m at next level, right associativity).
Notation "m ;;; k" := (bind m (fun _ => k))
  (at level 61, right associativity).

Definition emit (e : event) : M unit :=
  fun s => (Ok tt, {| ledger := ledger s; trace := e :: trace s |}).

Definition mem (x : string) (l : list string) : bool :=
  existsb (String.eqb x) l.

(** ** Database and settings *)

(** [db.prepare("SELECT 1 FROM synced_posts WHERE post_id = ?").get(id)] *)
Definition db_exists (pid : string) : M bool :=
  fun s => (Ok (mem pid (ledger s)),
            {| ledger := ledger s; trace := ECheck pid :: trace s |}).

(** [db.prepare("INSERT INTO synced_posts (post_id) VALUES (?)").run(id)]:
    [post_id] is the PRIMARY KEY, so a second insert of an id raises. *)
Definition db_insert (pid : string) : M unit :=
  fun s => if mem pid (ledger s)
           then (Exc "UNIQUE constraint failed: synced_posts.post_id", s)
           else (Ok tt, {| ledger := pid :: ledger s;
                           trace := EInsert pid :: trace s |}).

Fixpoint assoc {V} (k : string) (l : list (string * V)) : option V :=
  match l with
  | [] => None
  | (k', v) :: l' => if String.eqb k k' then Some v else assoc k l'
  end.

(** [getSetting(key)] is [row?.value || process.env[key]]. *)
Definition getSetting (w : world) (key : string) : jsval :=
  let stored := match assoc key (w_settings w) with
                | Some (Some v) => JStr v
                | Some None => JNull
                | None => JUndef
                end in
  js_or stored (of_opt (assoc key (w_env w))).

(** ** Network primitives *)

(** [await fetch(bloggerUrl)] then [await response.json()]. *)
Definition fetch_blogger (w : world) (url : string) : M blog_data :=
  emit (EFetchBlogger url) ;;;
  match w_blogger w with
  | None => throw "fetch failed"
  | Some None => throw "Unexpected token in JSON"
  | Some (Some d) => ret d
  end.

(** [await fetch(telegramUrl, {method: "POST", ...})] made for post [pid]. *)
Definition fetch_tg (w : world) (pid url text : string) (photo : option string)
  : M tg_resp :=
  fun s =>
    let r := w_tg w (List.length (trace s)) in
    let s' := {| ledger := ledger s;
                 trace := ESend pid url text photo r :: trace s |} in
    match r with
    | Some x => (Ok x, s')
    | None => (Exc "fetch failed", s')
    end.

(** [await telRes.json()] on a failed Telegram response. *)
Definition tg_json_body (r : tg_resp) : M unit :=
  if tg_json r then ret tt else throw "Unexpected token in JSON".

(** ** Steps shared by both handlers *)

Definition tg_message_url (botToken : jsval) : string :=
  "https://api.telegram.org/bot" ++ js_str botToken ++ "/sendMessage".
Definition tg_photo_url (botToken : jsval) : string :=
  "https://api.telegram.org/bot" ++ js_str botToken ++ "/sendPhoto".

Definition blogger_url (blogId apiKey : jsval) : string :=
  "https://www.googleapis.com/blogger/v3/blogs/" ++ js_str blogId
  ++ "/posts?key=" ++ js_str apiKey ++ "&maxResults=10".

(** [post.images?.[0]?.url] *)
Definition first_image (p : post) : jsval :=
  match p_images p with
  | Some (u :: _) => of_opt u
  | _ => JUndef
  end.

(** [let imageUrl = post.images?.[0]?.url;
     if (!imageUrl) { const imgMatch = post.content.match(...);
                      if (imgMatch) imageUrl = imgMatch[1]; }]
    The result is [Some u] when [imageUrl] ends up truthy, [None] when it is
    falsy; reading [.match] of an absent [content] raises a TypeError. *)
Definition resolve_image (p : post) : M (option string) :=
  match first_image p with
  | JStr u => if String.eqb u EmptyString then
                match p_content p with
                | None => throw "Cannot read properties of undefined (reading 'match')"
                | Some c => ret (img_match c)
                end
              else ret (Some u)
  | _ => match p_content p with
         | None => throw "Cannot read properties of undefined (reading 'match')"
         | Some c => ret (img_match c)
         end
  end.

(** [`${details}\n\n🔗 Download Now: ${post.url}`] *)
Definition full_message (details : string) (p : post) : string :=
  details ++ download_sep ++ js_str (of_opt (p_url p)).

(** ** The [part_001] handler *)

(** [extractMovieDetails(post)] of [part_001]. *)
Definition extractMovieDetails001 (p : post) : string :=
  let title := js_str (js_or (of_opt (p_title p)) (JStr "New Movie Post")) in
  let content := js_str (js_or (of_opt (p_content p)) (JStr EmptyString)) in
  let snippet := substring 0 200 (strip_tags content) ++ "..." in
  "<b>" ++ title ++ "</b>" ++ nl ++ nl ++ snippet.

(** The body of the per-post [try] of [part_001] (lines 178-229). *)
Definition process_body001 (w : world) (botToken : jsval) (p : post) (cnt : nat)
  : M nat :=
  exists_ <- db_exists (p_id p) ;;
  if exists_ then ret cnt else
  img <- resolve_image p ;;
  let fullMessage := full_message (extractMovieDetails001 p) p in
  let url := match img with
             | Some _ => tg_photo_url botToken
             | None => tg_message_url botToken
             end in
  telRes <- fetch_tg w (p_id p) url fullMessage img ;;
  if tg_ok telRes then
    db_insert (p_id p) ;;; ret (S cnt)
  else
    tg_json_body telRes ;;;
    match img with
    | Some _ =>
        textOnlyRes <- fetch_tg w (p_id p) (tg_message_url botToken) fullMessage None ;;
        if tg_ok textOnlyRes then db_insert (p_id p) ;;; ret (S cnt)
        else ret cnt
    | None => ret cnt
    end.

(** One iteration of [for (const post of postsToProcess) { try {...} catch ... }];
    the counter [syncedCount] is threaded through. *)
Definition process001 (w : world) (botToken : jsval) (p : post) (cnt : nat) : M nat :=
  try_catch (process_body001 w botToken p cnt)
    (fun e => emit (ELog ("Error processing post " ++ p_id p ++ ": " ++ e)) ;;;
              ret cnt).

Fixpoint loop001 (w : world) (botToken : jsval) (ps : list post) (cnt : nat)
  : M nat :=
  match ps with
  | [] => ret cnt
  | p :: ps' => c <- process001 w botToken p cnt ;; loop001 w botToken ps' c
  end.

Definition mk_resp (code : Z) (b : list (string * jsval)) : response :=
  {| status := code; rbody := b |}.

(** The [POST /api/sync] handler of [part_001]. *)
Definition sync001 (w : world) (req : request) : M response :=
  try_catch (
    let apiKey := js_or (r_api_key req) (getSetting w "BLOGGER_API_KEY") in
    let blogId := js_or (r_blog_id req) (getSetting w "BLOGGER_BLOG_ID") in
    let botToken := js_or (r_bot_token req) (getSetting w "TELEGRAM_BOT_TOKEN") in
    let chatId := js_or (r_chat_id req) (getSetting w "TELEGRAM_CHANNEL_ID") in
    if negb (truthy apiKey && truthy blogId && truthy botToken && truthy chatId)
    then ret (mk_resp 400
                [("error", JStr "Missing configuration. Please check your settings.")])
    else
      data <- fetch_blogger w (blogger_url blogId apiKey) ;;
      if truthy (b_error data) then
        ret (mk_resp 400
               [("error", JStr ("Blogger API Error: "
                   ++ js_str (js_or (js_get (b_error data) "message")
                                    (JStr "Unknown error"))))])
      else
        match b_items data with
        | None => ret (mk_resp 200 [("message", JStr "No posts found"); ("synced", JNum 0)])
        | Some items =>
            syncedCount <- loop001 w botToken (firstn 3 items) 0 ;;
            ret (mk_resp 200 [("message", JStr "Sync complete");
                              ("synced", JNum (Z.of_nat syncedCount))])
        end)
  (fun e => emit (ELog ("Global Sync Error: " ++ e)) ;;;
            ret (mk_resp 500 [("error", JStr ("Sync failed: " ++ e))])).

(** ** The [part_000] handler *)

(** [extractMovieDetails(content)] of [part_000]: one Gemini call; a thrown
    error is logged ([console.error("Gemini Error:", error)]) and gives
    [Error extracting details.], an empty text gives
    [Failed to extract details.]. *)
Definition extractMovieDetails000 (w : world) : M string :=
  fun s =>
    let r := w_gemini w (List.length (trace s)) in
    let s' := {| ledger := ledger s; trace := EGemini :: trace s |} in
    match r with
    | None => (Ok "Error extracting details.",
               {| ledger := ledger s'; trace := ELog "Gemini Error" :: trace s' |})
    | Some t => (Ok (if String.eqb t EmptyString
                     then "Failed to extract details." else t), s')
    end.

(** One iteration of the [for] loop of [part_000] (lines 166-199). *)
Definition process000 (w : world) (botToken : jsval) (p : post) (cnt : nat) : M nat :=
  exists_ <- db_exists (p_id p) ;;
  if exists_ then ret cnt else
  img <- resolve_image p ;;
  details <- extractMovieDetails000 w ;;
  let fullMessage := full_message details p in
  let url := match img with
             | Some _ => tg_photo_url botToken
             | None => tg_message_url botToken
             end in
  telRes <- fetch_tg w (p_id p) url fullMessage img ;;
  if tg_ok telRes then db_insert (p_id p) ;;; ret (S cnt)
  else ret cnt.

Fixpoint loop000 (w : world) (botToken : jsval) (ps : list post) (cnt : nat)
  : M nat :=
  match ps with
  | [] => ret cnt
  | p :: ps' => c <- process000 w botToken p cnt ;; loop000 w botToken ps' c
  end.

(** The [POST /api/sync] handler of [part_000]. *)
Definition sync000 (w : world) (req : request) : M response :=
  try_catch (
    let apiKey := js_or (r_api_key req) (getSetting w "BLOGGER_API_KEY") in
    let blogId := js_or (r_blog_id req) (getSetting w "BLOGGER_BLOG_ID") in
    let botToken := js_or (r_bot_token req) (getSetting w "TELEGRAM_BOT_TOKEN") in
    let chatId := js_or (r_chat_id req) (getSetting w "TELEGRAM_CHANNEL_ID") in
    if negb (truthy apiKey && truthy blogId && truthy botToken && truthy chatId)
    then ret (mk_resp 400 [("error", JStr "Missing configuration")])
    else
      data <- fetch_blogger w (blogger_url blogId apiKey) ;;
      match b_items data with
      | None => ret (mk_resp 200 [("message", JStr "No posts found"); ("synced", JNum 0)])
      | Some items =>
          syncedCount <- loop000 w botToken items 0 ;;
          ret (mk_resp 200 [("message", JStr "Sync complete");
                            ("synced", JNum (Z.of_nat syncedCount))])
      end)
  (fun e => emit (ELog ("Sync Error: " ++ e)) ;;;
            ret (mk_resp 500 [("error", JStr e)])).

(** ** [sendToTelegram] (identical in both files, called by neither handler) *)

(** The body of [sendToTelegram(message, url, imageUrl)]; [retry] stands for
    the recursive call [sendToTelegram(message, url)].  The events it emits
    are not tied to a post, so their [pid] is empty. *)
Definition send_body (retry : M unit) (w : world) (message url : string)
  (imageUrl : option string) : M unit :=
  let botToken := getSetting w "TELEGRAM_BOT_TOKEN" in
  let chatId := getSetting w "TELEGRAM_CHANNEL_ID" in
  if negb (truthy botToken && truthy chatId) then throw "Telegram credentials missing"
  else
    let fullMessage := message ++ download_sep ++ url in
    let photo := if truthy (of_opt imageUrl) then imageUrl else None in
    let turl := match photo with
                | Some _ => tg_photo_url botToken
                | None => tg_message_url botToken
                end in
    response <- fetch_tg w EmptyString turl fullMessage photo ;;
    if tg_ok response then ret tt
    else
      tg_json_body response ;;;
      if truthy (of_opt imageUrl) then retry
      else throw "Telegram failed".

(** The recursion unrolled once: the recursive call passes no image, so its
    own [retry] is never reached. *)
Definition sendToTelegram (w : world) (message url : string)
  (imageUrl : option string) : M unit :=
  send_body (send_body (ret tt) w message url None) w message url imageUrl.

(** ** Reading the trace *)

Open Scope list_scope.

(** The post id an event refers to. *)
Definition ev_pid (e : event) : option string :=
  match e with
  | ECheck x | EInsert x => Some x
  | ESend x _ _ _ _ => Some x
  | _ => None
  end.

(** Delivery attempts and ledger writes. *)
Definition delivers (e : event) : bool :=
  match e with
  | ESend _ _ _ _ _ | EInsert _ => true
  | _ => false
  end.

(** Ids written to the ledger, newest first. *)
Fixpoint inserts (d : list event) : list string :=
  match d with
  | [] => []
  | EInsert x :: d' => x :: inserts d'
  | _ :: d' => inserts d'
  end.

(** Every ledger write is immediately preceded by a Telegram call for the
    same post whose response was [ok]. *)
Fixpoint ok_ins (d : list event) : Prop :=
  match d with
  | [] => True
  | EInsert x :: d' =>
      match d' with
      | ESend y _ _ _ (Some r) :: _ => y = x /\ tg_ok r = true /\ ok_ins d'
      | _ => False
      end
  | _ :: d' => ok_ins d'
  end.

(** Number of ledger lookups ([SELECT 1 FROM synced_posts ...]). *)
Fixpoint count_checks (d : list event) : nat :=
  match d with
  | [] => 0
  | ECheck _ :: d' => S (count_checks d')
  | _ :: d' => count_checks d'
  end.

(** Successful Telegram calls made for post [x]. *)
Definition ok_send_for (x : string) (e : event) : Prop :=
  match e with
  | ESend y _ _ _ (Some r) => y = x /\ tg_ok r = true
  | _ => False
  end.

(** What one iteration of a handler's loop may do, started on ledger [l0]
    for post [pid]: it writes only after a successful send, touches only
    [pid], sends or writes only if [pid] was not in [l0], and reads the
    ledger exactly once. *)
Definition item_delta (pid : string) (l0 : list string) (d : list event) : Prop :=
  ok_ins d /\
  (forall e y, In e d -> ev_pid e = Some y -> y = pid) /\
  (forall e, In e d -> delivers e = true -> mem pid l0 = false) /\
  count_checks d = 1.

(** ** Definitions used in the statements *)

(** What a whole loop over [ps] may do, started on ledger [l0]. *)
Definition loop_delta (ps : list post) (l0 : list string) (d : list event) : Prop :=
  ok_ins d /\
  (forall e y, In e d -> ev_pid e = Some y -> In y (map p_id ps)) /\
  (forall x, In x l0 -> forall e, In e d -> delivers e = true -> ev_pid e <> Some x).

(** The posts the Blogger reply carries, [[]] when there are none. *)
Definition fetched (w : world) : list post :=
  match w_blogger w with
  | Some (Some data) => match b_items data with Some l => l | None => [] end
  | _ => []
  end.

(** The response of a cycle that ran its loop to the end. *)
Definition completed (resp : response) (n : Z) : Prop :=
  status resp = 200%Z /\
  rbody resp = [("message", JStr "Sync complete"); ("synced", JNum n)].

(** What a cycle does to the ledger: the new trace [d] extends the old
    one, every write in [d] comes right after a successful send for the same
    post, and the ledger grows by exactly the ids written. *)
Definition ledger_discipline (s s' : state) : Prop :=
  exists d, trace s' = d ++ trace s /\ ledger s' = inserts d ++ ledger s /\
    ok_ins d /\
    (forall x, ~ In x (ledger s) -> ~ (exists e, In e d /\ ok_send_for x e) ->
       ~ In x (ledger s')).

(** No delivery attempt and no ledger write names [x]. *)
Definition untouched (x : string) (d : list event) : Prop :=
  forall e, In e d -> delivers e = true -> ev_pid e <> Some x.

(** The outcome of a cycle on a ledger that already holds [s]'s ids. *)
Definition idempotent_on (ps : list post) (s : state) (rs : res response * state) : Prop :=
  exists d, trace (snd rs) = d ++ trace s /\
    (forall x, In x (ledger s) -> untouched x d) /\
    ((forall p, In p ps -> In (p_id p) (ledger s)) ->
       ledger (snd rs) = ledger s /\
       (forall e, In e d -> delivers e = false) /\
       exists resp, fst rs = Ok resp /\ forall n, completed resp n -> n = 0%Z).

(** One of the four values the handler resolves is falsy. *)
Definition config_missing (w : world) (req : request) : Prop :=
  truthy (js_or (r_api_key req) (getSetting w "BLOGGER_API_KEY")) = false \/
  truthy (js_or (r_blog_id req) (getSetting w "BLOGGER_BLOG_ID")) = false \/
  truthy (js_or (r_bot_token req) (getSetting w "TELEGRAM_BOT_TOKEN")) = false \/
  truthy (js_or (r_chat_id req) (getSetting w "TELEGRAM_CHANNEL_ID")) = false.

Definition TypeError_match : string :=
  "Cannot read properties of undefined (reading 'match')".

Definition cfg_settings : list (string * option string) :=
  [("BLOGGER_API_KEY", Some "key"); ("BLOGGER_BLOG_ID", Some "42");
   ("TELEGRAM_BOT_TOKEN", Some "tok"); ("TELEGRAM_CHANNEL_ID", Some "@chan")].

(** A request whose body carries none of the four fields. *)
Definition no_override : request :=
  {| r_api_key := JUndef; r_blog_id := JUndef; r_bot_token := JUndef;
     r_chat_id := JUndef |}.

Definition tg_always (ok : bool) : nat -> option tg_resp :=
  fun _ => Some {| tg_ok := ok; tg_json := true |}.

Definition mk_world (settings : list (string * option string))
  (blog : option (option blog_data)) (tg : nat -> option tg_resp) : world :=
  {| w_settings := settings; w_env := []; w_blogger := blog; w_tg := tg;
     w_gemini := fun _ => Some "details" |}.

Definition feed (ps : list post) : option (option blog_data) :=
  Some (Some {| b_error := JUndef; b_items := Some ps |}).

(** A post with neither [images] nor [content]. *)
Definition bare_post (id : string) : post :=
  {| p_id := id; p_title := Some "Untitled"; p_content := None;
     p_url := Some ("https://blog.example/" ++ id)%string; p_images := None |}.

(** A post with an image and a body. *)
Definition photo_post (id : string) : post :=
  {| p_id := id; p_title := Some "A film"; p_content := Some "<p>Plot</p>";
     p_url := Some ("https://blog.example/" ++ id)%string;
     p_images := Some [Some ("https://img.example/" ++ id ++ ".jpg")%string] |}.

Definition empty_state : state := {| ledger := []; trace := [] |}.

Definition c2_world : world :=
  mk_world cfg_settings (feed [bare_post "p1"; photo_post "p2"]) (tg_always true).

(** A Blogger reply carrying a structured error object and no [items]. *)
Definition c7_world : world :=
  mk_world cfg_settings
    (Some (Some {| b_error := JObj [("message", JStr "API key not valid.")];
                   b_items := None |}))
    (tg_always true).

(** The empty string read as an absent field. *)
Definition blank_as_absent (v : jsval) : jsval :=
  match v with
  | JStr s => if String.eqb s EmptyString then JUndef else v
  | _ => v
  end.

Definition req_blank_as_absent (req : request) : request :=
  {| r_api_key := blank_as_absent (r_api_key req);
     r_blog_id := blank_as_absent (r_blog_id req);
     r_bot_token := blank_as_absent (r_bot_token req);
     r_chat_id := blank_as_absent (r_chat_id req) |}.

(** What the [part_001] cap guarantees for one cycle. *)
Definition capped_cycle (w : world) (s : state) (rs : res response * state) : Prop :=
  exists d, trace (snd rs) = d ++ trace s /\ count_checks d <= 3 /\
    (forall x, ~ In x (map p_id (firstn 3 (fetched w))) ->
       (forall e, In e d -> ev_pid e <> Some x) /\
       (In x (ledger (snd rs)) <-> In x (ledger s))) /\
    exists resp, fst rs = Ok resp /\
      forall n, completed resp n -> count_checks d = List.length (firstn 3 (fetched w)).

(** What a completed [part_000] cycle has examined. *)
Definition uncapped_cycle (w : world) (s : state) (rs : res response * state) : Prop :=
  exists d, trace (snd rs) = d ++ trace s /\
    exists resp, fst rs = Ok resp /\
      forall n, completed resp n -> count_checks d = List.length (fetched w).

Definition c3_world : world :=
  mk_world cfg_settings
    (feed [photo_post "p1"; photo_post "p2"; photo_post "p3"; photo_post "p4"])
    (tg_always true).

(** The helper [sendToTelegram] after a failed photo send [r1] whose body
    parses: one text-only call with the same composed message, whose
    failure raises. *)
Definition send_retry_outcome (w : world) (m url u : string) (r1 : tg_resp) (s : state)
  : res unit * state :=
  let bot := getSetting w "TELEGRAM_BOT_TOKEN" in
  let msg := (m ++ download_sep ++ url)%string in
  let t1 := ESend EmptyString (tg_photo_url bot) msg (Some u) (Some r1) :: trace s in
  match w_tg w (S (List.length (trace s))) with
  | Some r2 =>
      (if tg_ok r2 then Ok tt
       else if tg_json r2 then Exc "Telegram failed" else Exc "Unexpected token in JSON",
       {| ledger := ledger s;
          trace := ESend EmptyString (tg_message_url bot) msg None (Some r2) :: t1 |})
  | None =>
      (Exc "fetch failed",
       {| ledger := ledger s;
          trace := ESend EmptyString (tg_message_url bot) msg None None :: t1 |})
  end.

(** The [part_001] loop body after a failed photo send [r1] whose body
    parses: one text-only call with the same composed message; on [ok] the
    post is written and counted once, otherwise nothing more happens and
    nothing is raised (a rejected [fetch] is caught and logged). *)
Definition retry_outcome001 (w : world) (bot : jsval) (p : post) (cnt : nat)
  (u : string) (r1 : tg_resp) (s : state) : res nat * state :=
  let pid := p_id p in
  let msg := full_message (extractMovieDetails001 p) p in
  let t1 := ESend pid (tg_photo_url bot) msg (Some u) (Some r1) :: ECheck pid :: trace s in
  match w_tg w (S (S (List.length (trace s)))) with
  | Some r2 =>
      if tg_ok r2 then
        (Ok (S cnt), {| ledger := pid :: ledger s;
                        trace := EInsert pid
                                 :: ESend pid (tg_message_url bot) msg None (Some r2) :: t1 |})
      else
        (Ok cnt, {| ledger := ledger s;
                    trace := ESend pid (tg_message_url bot) msg None (Some r2) :: t1 |})
  | None =>
      (Ok cnt, {| ledger := ledger s;
                  trace := ELog ("Error processing post " ++ pid ++ ": fetch failed")%string
                           :: ESend pid (tg_message_url bot) msg None None :: t1 |})
  end.

Definition tg_failed : tg_resp := {| tg_ok := false; tg_json := true |}.

(** Telegram rejects the first call of the cycle (index 1, after the ledger
    read) and accepts every other one. *)
Definition c5_world : world :=
  mk_world cfg_settings (feed [photo_post "p1"])
    (fun n => if Nat.eqb n 1 then Some tg_failed else Some {| tg_ok := true; tg_json := true |}).

(** Telegram rejects every call. *)
Definition c5_world_down : world :=
  mk_world cfg_settings (feed [photo_post "p1"]) (fun _ => Some tg_failed).

Definition p1_message : string :=
  full_message (extractMovieDetails001 (photo_post "p1")) (photo_post "p1").

(** The three bodies a handler can answer with. *)
Definition response_shape (resp : response) : Prop :=
  (exists m, rbody resp = [("error", JStr m)]) \/
  rbody resp = [("message", JStr "No posts found"); ("synced", JNum 0)] \/
  (exists n, rbody resp = [("message", JStr "Sync complete"); ("synced", JNum n)]).

Definition config_present (w : world) (req : request) : Prop :=
  truthy (js_or (r_api_key req) (getSetting w "BLOGGER_API_KEY")) = true /\
  truthy (js_or (r_blog_id req) (getSetting w "BLOGGER_BLOG_ID")) = true /\
  truthy (js_or (r_bot_token req) (getSetting w "TELEGRAM_BOT_TOKEN")) = true /\
  truthy (js_or (r_chat_id req) (getSetting w "TELEGRAM_CHANNEL_ID")) = true.

(** The answer of a [part_001] cycle: one of the three bodies; 500 only when
    the Blogger call or its JSON decoding fails; and, once the configuration
    is present and Blogger returns [items] without [error], always 200
    [Sync complete] with the number of posts written in the cycle, whatever
    happened to the individual posts. *)
Definition outcome001 (w : world) (req : request) (s : state)
  (rs : res response * state) : Prop :=
  exists resp, fst rs = Ok resp /\ response_shape resp /\
    (status resp = 200%Z \/ status resp = 400%Z \/ status resp = 500%Z) /\
    (status resp = 500%Z -> w_blogger w = None \/ w_blogger w = Some None) /\
    (forall data l, config_present w req -> w_blogger w = Some (Some data) ->
       truthy (b_error data) = false -> b_items data = Some l ->
       exists d, trace (snd rs) = d ++ trace s /\
         completed resp (Z.of_nat (List.length (inserts d)))).

Definition outcome000 (rs : res response * state) : Prop :=
  exists resp, fst rs = Ok resp /\ response_shape resp.

(** ** The rest of the two servers and the dashboard *)

(** [setSetting(key, value)] of both files:
    [INSERT OR REPLACE INTO settings (key, value) VALUES (?, ?)]. *)
Definition setSetting (w : world) (key value : string) : world :=
  {| w_settings := (key, Some value)
                   :: filter (fun kv => negb (String.eqb (fst kv) key)) (w_settings w);
     w_env := w_env w; w_blogger := w_blogger w; w_tg := w_tg w;
     w_gemini := w_gemini w |}.

(** The [settings] object of [GET /api/status] in [part_000]: for each of
    the four keys, [getSetting(key)] or, when that is falsy, the empty
    string. *)
Definition status_settings (w : world) : list (string * jsval) :=
  [("BLOGGER_API_KEY", js_or (getSetting w "BLOGGER_API_KEY") (JStr EmptyString));
   ("BLOGGER_BLOG_ID", js_or (getSetting w "BLOGGER_BLOG_ID") (JStr EmptyString));
   ("TELEGRAM_BOT_TOKEN", js_or (getSetting w "TELEGRAM_BOT_TOKEN") (JStr EmptyString));
   ("TELEGRAM_CHANNEL_ID", js_or (getSetting w "TELEGRAM_CHANNEL_ID") (JStr EmptyString))].

(** The JSON body of [GET /api/status] in [part_000] (lines 124-141):
    [syncedCount] is the number of rows of [synced_posts] and [configured] is
    [!!(a && b && c && d)] over the four settings.  The [recentPosts] field
    ([ORDER BY synced_at DESC LIMIT 5]) is not modelled: the ledger keeps
    no [synced_at] timestamps. *)
Definition status000 (w : world) (s : state) : list (string * jsval) :=
  let settings := status_settings w in
  [("syncedCount", JNum (Z.of_nat (List.length (ledger s))));
   ("settings", JObj settings);
   ("configured", JBool (truthy (js_get (JObj settings) "BLOGGER_API_KEY")
                         && truthy (js_get (JObj settings) "BLOGGER_BLOG_ID")
                         && truthy (js_get (JObj settings) "TELEGRAM_BOT_TOKEN")
                         && truthy (js_get (JObj settings) "TELEGRAM_CHANNEL_ID")))].

(** The JSON body of [GET /api/status] in [part_001] when the database
    answers (lines 123-130); [recentPosts] is left out as above. *)
Definition status001 (s : state) : list (string * jsval) :=
  [("syncedCount", JNum (Z.of_nat (List.length (ledger s)))); ("dbStatus", JStr "ok")].

(** A Telegram call made by [sendToTelegram] with the composed [text]. *)
Definition helper_call (text : string) (e : event) : Prop :=
  match e with
  | ESend pid _ t _ _ => pid = EmptyString /\ t = text
  | _ => False
  end.

(** [s] contains the character [>]. *)
Fixpoint has_gt (s : string) : bool :=
  match s with
  | EmptyString => false
  | String c r => Ascii.eqb c ">" || has_gt r
  end.

(** No [<] of [s] has a [>] somewhere after it: [s] holds no [<...>] tag. *)
Fixpoint no_tag (s : string) : bool :=
  match s with
  | EmptyString => true
  | String c r => (negb (Ascii.eqb c "<") || negb (has_gt r)) && no_tag r
  end.

(** Every character of [s] satisfies [ok]. *)
Fixpoint all_chars (ok : ascii -> bool) (s : string) : bool :=
  match s with
  | EmptyString => true
  | String c r => ok c && all_chars ok r
  end.

(** The title [extractMovieDetails] of [part_001] shows:
    [post.title || "New Movie Post"]. *)
Definition shown_title (p : post) : string :=
  match p_title p with
  | Some t => if String.eqb t EmptyString then "New Movie Post" else t
  | None => "New Movie Post"
  end.

(** *** The dashboard ([src/src/App.tsx]) *)

(** [formData]: the four configuration fields of the form. *)
Record form_data : Type := {
  BLOGGER_API_KEY : string;
  BLOGGER_BLOG_ID : string;
  TELEGRAM_BOT_TOKEN : string;
  TELEGRAM_CHANNEL_ID : string
}.

Inductive msg_type : Type := success | error | info.

(** The argument of [setMessage]. *)
Record ui_message : Type := {
  m_text : jsval;
  m_type : msg_type
}.

(** What [handleSync] does, in order. *)
Inductive ui_action : Type :=
| SetMessage (m : ui_message)
| SetSyncing (b : bool)
| PostSync (body : request)      (** [fetch("/api/sync", {method: "POST", ...})] *)
| FetchStatus.                   (** [fetchStatus()], not awaited *)

(** [!formData.X] is false for each of the four fields. *)
Definition form_filled (f : form_data) : bool :=
  negb (String.eqb (BLOGGER_API_KEY f) EmptyString)
  && negb (String.eqb (BLOGGER_BLOG_ID f) EmptyString)
  && negb (String.eqb (TELEGRAM_BOT_TOKEN f) EmptyString)
  && negb (String.eqb (TELEGRAM_CHANNEL_ID f) EmptyString).

(** [JSON.stringify(formData)] as the server destructures [req.body]. *)
Definition request_of_form (f : form_data) : request :=
  {| r_api_key := JStr (BLOGGER_API_KEY f); r_blog_id := JStr (BLOGGER_BLOG_ID f);
     r_bot_token := JStr (TELEGRAM_BOT_TOKEN f); r_chat_id := JStr (TELEGRAM_CHANNEL_ID f) |}.

(** [res.ok]: a status in [200..299]. *)
Definition res_ok (r : response) : bool :=
  (200 <=? status r)%Z && (status r <=? 299)%Z.

(** [v > 0] on a JSON value: numbers compare directly, [true] is [1],
    [null] is [0], [undefined] and objects are [NaN]; strings are read as
    decimal integers, any other spelling as [NaN]. *)
Definition js_gt0 (v : jsval) : bool :=
  match v with
  | JNum z => (0 <? z)%Z
  | JBool b => b
  | JStr s => match NilZero.int_of_string s with
              | Some i => (0 <? Z.of_int i)%Z
              | None => false
              end
  | JUndef | JNull | JObj _ => false
  end.

(** [handleSync()] (lines 59-92).  [server] answers the POST made with the
    form's values; [None] stands for a rejected [fetch] or [res.json()]. *)
Definition handleSync (server : request -> option response) (f : form_data)
  : list ui_action :=
  if negb (form_filled f) then
    [SetMessage {| m_text := JStr "Please fill in all configuration fields first.";
                   m_type := error |}]
  else
    let body := request_of_form f in
    [SetSyncing true;
     SetMessage {| m_text := JStr "Checking for new posts..."; m_type := info |};
     PostSync body]
    ++ match server body with
       | None => [SetMessage {| m_text := JStr "Network error during sync"; m_type := error |}]
       | Some r =>
           let data := JObj (rbody r) in
           if res_ok r then
             (if js_gt0 (js_get data "synced") then
                [SetMessage {| m_text := JStr ("Sync complete! " ++ js_str (js_get data "synced")
                                               ++ " new posts sent to Telegram.")%string;
                               m_type := success |}]
              else [SetMessage {| m_text := JStr "No new posts found."; m_type := info |}])
             ++ [FetchStatus]
           else [SetMessage {| m_text := js_or (js_get data "error") (JStr "Sync failed");
                               m_type := error |}]
       end
    ++ [SetSyncing false].

(** A server handler answering one request from state [s]. *)
Definition serve (h : world -> request -> M response) (w : world) (s : state)
  : request -> option response :=
  fun req => match fst (h w req s) with Ok r => Some r | Exc _ => None end.

(** The message [handleSync] shows once [n] posts were recorded. *)
Definition sync_message (n : nat) : ui_message :=
  if Nat.ltb 0 n then
    {| m_text := JStr ("Sync complete! " ++ js_str (JNum (Z.of_nat n))
                       ++ " new posts sent to Telegram.")%string; m_type := success |}
  else {| m_text := JStr "No new posts found."; m_type := info |}.

(** A Telegram call, if [e] is one, goes to the bot [botToken]. *)
Definition sends_to (botToken : jsval) (e : event) : Prop :=
  match e with
  | ESend _ u _ _ _ => u = tg_photo_url botToken \/ u = tg_message_url botToken
  | _ => True
  end.

(** *** Sample inputs for the properties below *)

Definition q : string := String dquote EmptyString.

(** A post body whose image tag carries an attribute before [src]. *)
Definition sample_content : string :=
  "<p><img alt=x src=" ++ q ++ "https://img.example/a.jpg" ++ q ++ "></p>".

(** A post whose only image is in its [content]. *)
Definition content_image_post : post :=
  {| p_id := "p8"; p_title := Some "A film"; p_content := Some sample_content;
     p_url := Some "https://blog.example/p8"; p_images := None |}.

(** A post with an image but no [content]. *)
Definition image_only_post : post :=
  {| p_id := "p9"; p_title := Some "A film"; p_content := None;
     p_url := Some "https://blog.example/p9";
     p_images := Some [Some "https://img.example/p9.jpg"] |}.

Definition tg_accepted : tg_resp := {| tg_ok := true; tg_json := true |}.

(** Nothing stored and nothing in the environment. *)
Definition unconfigured_world : world := mk_world [] (feed []) (tg_always true).

(** A Blogger error without [message], next to an [items] array. *)
Definition error_and_items : blog_data :=
  {| b_error := JObj [("code", JNum 403)]; b_items := Some [photo_post "p1"] |}.

Definition error_world : world :=
  mk_world cfg_settings (Some (Some error_and_items)) (tg_always true).

(** A form whose values differ from the stored [cfg_settings]. *)
Definition sample_form : form_data :=
  {| BLOGGER_API_KEY := "formkey"; BLOGGER_BLOG_ID := "7";
     TELEGRAM_BOT_TOKEN := "formtok"; TELEGRAM_CHANNEL_ID := "@mine" |}.

Definition one_post_feed : blog_data :=
  {| b_error := JUndef; b_items := Some [photo_post "p1"] |}.

(** Gemini throws on every call. *)
Definition gemini_down_world : world :=
  {| w_settings := cfg_settings; w_env := []; w_blogger := feed [];
     w_tg := tg_always true; w_gemini := fun _ => None |}.

(** The message SQLite gives for a second row with the same [post_id]. *)
Definition unique_error : string := "UNIQUE constraint failed: synced_posts.post_id".

(** *** Tactics *)

(** [peel X Y] computes the list [d] with [X = d ++ Y], [X] being [Y] with
    events consed in front. *)
Ltac peel X Y :=
  lazymatch X with
  | Y => constr:(@nil event)
  | ?e :: ?X' => let r := peel X' Y in constr:(e :: r)
  end.

Ltac give_delta :=
  lazymatch goal with
  | |- exists d, ?X = d ++ ?Y /\ _ =>
      let d := peel X Y in exists d; split; [reflexivity |]
  end.

Ltac split_matches :=
  repeat match goal with
         | |- context [match ?x with _ => _ end] =>
             lazymatch type of x with
             | prod _ _ => fail
             | list event => fail
             | _ => destruct x eqn:?
             end
         end.

Lemma ok_ins_app (d2 d1 : list event) :
  ok_ins d2 -> ok_ins d1 -> ok_ins (d2 ++ d1).
Proof.
  induction d2 as [| e d2 IH]; simpl; intros H2 H1; [exact H1 |].
  destruct e; try (apply IH; assumption).
  destruct d2 as [| e' d2']; [contradiction |].
  destruct e'; try contradiction.
  destruct resp as [r |]; [| contradiction].
  destruct H2 as (Hy & Hr & Hd). simpl. repeat split; auto.
Qed.

Lemma inserts_app (d2 d1 : list event) :
  inserts (d2 ++ d1) = inserts d2 ++ inserts d1.
Proof.
  induction d2 as [| e d2 IH]; simpl; [reflexivity |].
  destruct e; simpl; rewrite ?IH; reflexivity.
Qed.

Lemma count_checks_app (d2 d1 : list event) :
  count_checks (d2 ++ d1) = count_checks d2 + count_checks d1.
Proof.
  induction d2 as [| e d2 IH]; simpl; [reflexivity |].
  destruct e; simpl; rewrite ?IH; reflexivity.
Qed.

Ltac solve_item :=
  unfold item_delta; simpl;
  repeat split;
  repeat match goal with
         | |- forall _, _ => intro
         | |- _ -> _ => intro
         end;
  simpl in *; intuition (subst; simpl in *; try congruence; try lia).

(** *** One iteration of the [part_001] loop *)

Lemma process001_step (w : world) (bot : jsval) (p : post) (cnt : nat) (s : state) :
  let '(r, s') := process001 w bot p cnt s in
  exists d, trace s' = d ++ trace s /\ ledger s' = inserts d ++ ledger s /\
    item_delta (p_id p) (ledger s) d /\ r = Ok (cnt + List.length (inserts d)).
Proof.
  unfold process001, process_body001, try_catch, bind, db_exists, resolve_image,
    fetch_tg, db_insert, tg_json_body, emit, ret, throw.
  simpl. split_matches; simpl; give_delta; split; try reflexivity; split;
    try solve_item; f_equal; simpl; lia.
Qed.

(** *** One iteration of the [part_000] loop *)

Lemma process000_step (w : world) (bot : jsval) (p : post) (cnt : nat) (s : state) :
  let '(r, s') := process000 w bot p cnt s in
  exists d, trace s' = d ++ trace s /\ ledger s' = inserts d ++ ledger s /\
    item_delta (p_id p) (ledger s) d /\
    (r = Ok (cnt + List.length (inserts d)) \/ exists e, r = Exc e).
Proof.
  unfold process000, extractMovieDetails000, bind, db_exists, resolve_image,
    fetch_tg, db_insert, emit, ret, throw.
  simpl. split_matches; simpl; give_delta; split; try reflexivity;
    (split; [solve_item |]);
    try (right; eexists; reflexivity); left; f_equal; simpl; lia.
Qed.

(** *** The loops *)

Lemma mem_In (x : string) (l : list string) : mem x l = true <-> In x l.
Proof.
  unfold mem. rewrite existsb_exists. split.
  - intros (y & Hy & Heq). apply String.eqb_eq in Heq. subst. exact Hy.
  - intros H. exists x. split; [exact H | apply String.eqb_refl].
Qed.

Lemma loop_delta_nil (ps : list post) (l0 : list string) : loop_delta ps l0 [].
Proof. repeat split; intros; simpl in *; contradiction. Qed.

(** Composing one iteration with the rest of the loop. *)
Lemma loop_delta_cons (p : post) (ps : list post) (l0 : list string)
  (d1 d2 : list event) :
  item_delta (p_id p) l0 d1 ->
  loop_delta ps (inserts d1 ++ l0) d2 ->
  loop_delta (p :: ps) l0 (d2 ++ d1).
Proof.
  intros (H1ok & H1pid & H1del & _) (H2ok & H2pid & H2del).
  split; [apply ok_ins_app; assumption |]. split.
  - intros e y Hin Hy. apply in_app_or in Hin as [Hin | Hin].
    + right. exact (H2pid e y Hin Hy).
    + left. symmetry. exact (H1pid e y Hin Hy).
  - intros x Hx e Hin Hdel Hy. apply in_app_or in Hin as [Hin | Hin].
    + apply (H2del x) with e; auto. apply in_or_app. right. exact Hx.
    + pose proof (H1pid e x Hin Hy) as ->.
      pose proof (H1del e Hin Hdel) as Hm.
      apply mem_In in Hx. congruence.
Qed.

Lemma loop001_step (w : world) (bot : jsval) (ps : list post) (cnt : nat) (s : state) :
  let '(r, s') := loop001 w bot ps cnt s in
  exists d, trace s' = d ++ trace s /\ ledger s' = inserts d ++ ledger s /\
    loop_delta ps (ledger s) d /\ count_checks d = List.length ps /\
    r = Ok (cnt + List.length (inserts d)).
Proof.
  revert cnt s. induction ps as [| p ps IH]; intros cnt s; simpl.
  - exists []. simpl. split; [reflexivity |]. split; [reflexivity |].
    split; [apply loop_delta_nil |]. split; [reflexivity |]. f_equal. lia.
  - unfold bind. pose proof (process001_step w bot p cnt s) as Hp.
    destruct (process001 w bot p cnt s) as [r1 s1].
    destruct Hp as (d1 & Ht1 & Hl1 & Hd1 & ->).
    specialize (IH (cnt + List.length (inserts d1)) s1).
    destruct (loop001 w bot ps _ s1) as [r2 s2].
    destruct IH as (d2 & Ht2 & Hl2 & Hd2 & Hc2 & ->).
    exists (d2 ++ d1). rewrite Ht2, Ht1, Hl2, Hl1, app_assoc, app_assoc,
      inserts_app, count_checks_app, length_app.
    split; [reflexivity |]. split; [reflexivity |]. split.
    + apply loop_delta_cons; [exact Hd1 |]. rewrite <- Hl1. exact Hd2.
    + destruct Hd1 as (_ & _ & _ & ->). split; [lia |]. f_equal. lia.
Qed.

Lemma loop000_step (w : world) (bot : jsval) (ps : list post) (cnt : nat) (s : state) :
  let '(r, s') := loop000 w bot ps cnt s in
  exists d, trace s' = d ++ trace s /\ ledger s' = inserts d ++ ledger s /\
    loop_delta ps (ledger s) d /\ count_checks d <= List.length ps /\
    ((r = Ok (cnt + List.length (inserts d)) /\ count_checks d = List.length ps)
     \/ exists e, r = Exc e).
Proof.
  revert cnt s. induction ps as [| p ps IH]; intros cnt s; simpl.
  - exists []. simpl. split; [reflexivity |]. split; [reflexivity |].
    split; [apply loop_delta_nil |]. split; [lia |].
    left. split; [f_equal; lia | reflexivity].
  - unfold bind. pose proof (process000_step w bot p cnt s) as Hp.
    destruct (process000 w bot p cnt s) as [r1 s1].
    destruct Hp as (d1 & Ht1 & Hl1 & Hd1 & Hr1).
    assert (Hc1 : count_checks d1 = 1) by apply Hd1.
    destruct Hr1 as [-> | (e & ->)].
    + specialize (IH (cnt + List.length (inserts d1)) s1).
      destruct (loop000 w bot ps _ s1) as [r2 s2].
      destruct IH as (d2 & Ht2 & Hl2 & Hd2 & Hle2 & Hr2).
      exists (d2 ++ d1). rewrite Ht2, Ht1, Hl2, Hl1, app_assoc, app_assoc,
        inserts_app, count_checks_app, length_app.
      split; [reflexivity |]. split; [reflexivity |]. split; [| split].
      * apply loop_delta_cons; [exact Hd1 |]. rewrite <- Hl1. exact Hd2.
      * lia.
      * destruct Hr2 as [(-> & Hc2) | (e & ->)]; [left | right; eauto].
        split; [f_equal; lia | lia].
    + exists d1. rewrite Ht1, Hl1.
      split; [reflexivity |]. split; [reflexivity |]. split; [| split].
      * replace d1 with ([] ++ d1) by reflexivity.
        apply loop_delta_cons; [exact Hd1 | apply loop_delta_nil].
      * lia.
      * right. eauto.
Qed.

Lemma loop_delta_app (ps : list post) (l0 : list string) (d1 d2 : list event) :
  loop_delta ps l0 d1 -> loop_delta ps l0 d2 -> loop_delta ps l0 (d1 ++ d2).
Proof.
  intros (H1ok & H1pid & H1del) (H2ok & H2pid & H2del).
  split; [apply ok_ins_app; assumption |]. split.
  - intros e y Hin. apply in_app_or in Hin as [Hin | Hin]; eauto.
  - intros x Hx e Hin. apply in_app_or in Hin as [Hin | Hin]; eauto.
Qed.

(** Events that name no post are harmless for every loop. *)
Lemma loop_delta_quiet (ps : list post) (l0 : list string) (d : list event) :
  (forall e, In e d -> ev_pid e = None) -> loop_delta ps l0 d.
Proof.
  induction d as [| e d IH]; intros Hq; [apply loop_delta_nil |].
  replace (e :: d) with ([e] ++ d) by reflexivity.
  apply loop_delta_app; [| apply IH; intros e' He'; apply Hq; right; exact He'].
  assert (He : ev_pid e = None) by (apply Hq; left; reflexivity).
  split; [destruct e; simpl in *; try discriminate; exact I |]. split.
  - intros e' y [<- | []] Hy. congruence.
  - intros x _ e' [<- | []] _ Hy. congruence.
Qed.

Ltac quiet := apply loop_delta_quiet; intros ? Hin; simpl in Hin;
  intuition (subst; reflexivity).

Ltac use_loop L LS :=
  match goal with
  | |- context [L ?a ?b ?c ?d ?e] =>
      pose proof (LS a b c d e) as HL;
      destruct (L a b c d e) as [r1 s1]
  end.

Ltac rw_fetched :=
  unfold fetched;
  repeat match goal with
         | H : w_blogger _ = _ |- _ => rewrite H
         | H : b_items _ = _ |- _ => rewrite H
         end.

(** *** A whole [part_001] cycle *)

Lemma sync001_step (w : world) (req : request) (s : state) :
  let '(r, s') := sync001 w req s in
  exists d, trace s' = d ++ trace s /\
    ledger s' = inserts d ++ ledger s /\
    loop_delta (firstn 3 (fetched w)) (ledger s) d /\
    count_checks d <= 3 /\
    exists resp, r = Ok resp /\
    (forall n, completed resp n ->
       count_checks d = List.length (firstn 3 (fetched w)) /\
       n = Z.of_nat (List.length (inserts d))).
Proof.
  unfold sync001, try_catch, bind, fetch_blogger, emit, throw, ret.
  cbn -[firstn fetched loop001 blogger_url]. split_matches; cbn -[firstn fetched loop001 blogger_url].
  all: try use_loop loop001 loop001_step.
  all: cbn -[firstn fetched loop001 blogger_url] in *.
  all: rw_fetched.
  all: try (give_delta; split; [reflexivity |]; split; [quiet |];
            split; [simpl; lia |]; eexists; split; [reflexivity |];
            intros n (Hs & Hb); simpl in *; discriminate).
  destruct HL as (d & Ht & Hl & Hd & Hc & ->).
  exists (d ++ [EFetchBlogger (blogger_url
    (js_or (r_blog_id req) (getSetting w "BLOGGER_BLOG_ID"))
    (js_or (r_api_key req) (getSetting w "BLOGGER_API_KEY")))]).
  rewrite Ht, <- app_assoc. split; [reflexivity |].
  rewrite Hl, inserts_app. simpl inserts. rewrite app_nil_r. split; [reflexivity |].
  split; [apply loop_delta_app; [exact Hd | quiet] |].
  rewrite count_checks_app, Hc. simpl count_checks.
  pose proof (firstn_le_length 3 l). split; [lia |].
  eexists; split; [reflexivity |].
  intros n (_ & Hb). simpl in Hb. injection Hb as <-. split; [lia | reflexivity].
Qed.

(** *** A whole [part_000] cycle *)

Lemma sync000_step (w : world) (req : request) (s : state) :
  let '(r, s') := sync000 w req s in
  exists d, trace s' = d ++ trace s /\
    ledger s' = inserts d ++ ledger s /\
    loop_delta (fetched w) (ledger s) d /\
    count_checks d <= List.length (fetched w) /\
    exists resp, r = Ok resp /\
    (forall n, completed resp n ->
       count_checks d = List.length (fetched w) /\
       n = Z.of_nat (List.length (inserts d))).
Proof.
  unfold sync000, try_catch, bind, fetch_blogger, emit, throw, ret.
  cbn -[fetched loop000 blogger_url]. split_matches; cbn -[fetched loop000 blogger_url].
  all: try use_loop loop000 loop000_step.
  all: cbn -[fetched loop000 blogger_url] in *.
  all: rw_fetched.
  all: try (give_delta; split; [reflexivity |]; split; [quiet |];
            split; [simpl; lia |]; eexists; split; [reflexivity |];
            intros n (Hs & Hb); simpl in *; discriminate).
  destruct HL as (d & Ht & Hl & Hd & Hle & Hr).
  destruct Hr as [(-> & Hc) | (e & ->)].
  - exists (d ++ [EFetchBlogger (blogger_url
      (js_or (r_blog_id req) (getSetting w "BLOGGER_BLOG_ID"))
      (js_or (r_api_key req) (getSetting w "BLOGGER_API_KEY")))]).
    rewrite Ht, <- app_assoc. split; [reflexivity |].
    rewrite Hl, inserts_app. simpl inserts. rewrite app_nil_r. split; [reflexivity |].
    split; [apply loop_delta_app; [exact Hd | quiet] |].
    rewrite count_checks_app. simpl count_checks. split; [lia |].
    eexists; split; [reflexivity |].
    intros n (_ & Hb). simpl in Hb. injection Hb as <-. split; [lia | reflexivity].
  - cbn. set (u := blogger_url _ _) in *.
    exists (ELog ("Sync Error: " ++ e)%string :: d ++ [EFetchBlogger u]).
    rewrite Ht. simpl app. rewrite <- app_assoc. split; [reflexivity |].
    rewrite Hl. simpl inserts. rewrite inserts_app. simpl inserts.
    rewrite app_nil_r. split; [reflexivity |].
    split.
    + replace (ELog _ :: d ++ [EFetchBlogger u])
        with ([ELog ("Sync Error: " ++ e)%string] ++ d ++ [EFetchBlogger u])
        by reflexivity.
      apply loop_delta_app; [quiet |]. apply loop_delta_app; [exact Hd | quiet].
    + simpl count_checks. rewrite count_checks_app. simpl count_checks.
      split; [lia |].
      eexists; split; [reflexivity |].
      intros n (Hs & _). simpl in Hs. discriminate.
Qed.

Lemma ok_ins_inserted (d : list event) (x : string) :
  ok_ins d -> In x (inserts d) -> exists e, In e d /\ ok_send_for x e.
Proof.
  induction d as [| e d IH]; simpl; [contradiction |].
  intros Hok Hin. destruct e; simpl in Hin;
    try (destruct (IH Hok Hin) as (e' & He' & Hs); exists e'; auto; fail).
  destruct d as [| e' d']; [contradiction |].
  destruct e'; try contradiction. destruct resp as [r |]; [| contradiction].
  destruct Hok as (Hy & Hr & Hok). destruct Hin as [<- | Hin].
  - exists (ESend pid0 url text photo (Some r)). split; [right; left; reflexivity |].
    simpl. auto.
  - destruct (IH Hok Hin) as (e'' & He'' & Hs). exists e''. auto.
Qed.

Lemma discipline_of_delta (s s' : state) (d : list event) :
  trace s' = d ++ trace s -> ledger s' = inserts d ++ ledger s -> ok_ins d ->
  ledger_discipline s s'.
Proof.
  intros Ht Hl Hok. exists d. split; [exact Ht |]. split; [exact Hl |].
  split; [exact Hok |].
  intros x Hx Hno Hin. rewrite Hl in Hin. apply in_app_or in Hin as [Hin | Hin].
  - apply Hno. apply ok_ins_inserted; assumption.
  - contradiction.
Qed.

(** *** C1 *)

(** C1: in both handlers, a post id enters [synced_posts] only right
    after a Telegram call for that post returned [ok]; an id that was not
    in the ledger and got no successful send in the cycle is still absent
    from the ledger afterwards, so it stays a candidate. *)
Theorem ledger_written_only_after_ok_send (w : world) (req : request) (s : state) :
  ledger_discipline s (snd (sync001 w req s)) /\
  ledger_discipline s (snd (sync000 w req s)).
Proof.
  split.
  - pose proof (sync001_step w req s) as H.
    destruct (sync001 w req s) as [r s']. simpl.
    destruct H as (d & Ht & Hl & (Hok & _) & _).
    exact (discipline_of_delta s s' d Ht Hl Hok).
  - pose proof (sync000_step w req s) as H.
    destruct (sync000 w req s) as [r s']. simpl.
    destruct H as (d & Ht & Hl & (Hok & _) & _).
    exact (discipline_of_delta s s' d Ht Hl Hok).
Qed.

(** *** C4 *)

Lemma delivers_pid (e : event) :
  delivers e = true -> exists y, ev_pid e = Some y.
Proof. destruct e; simpl; try discriminate; eauto. Qed.

Lemma inserts_delivers (d : list event) (x : string) :
  In x (inserts d) -> In (EInsert x) d.
Proof.
  induction d as [| e d IH]; simpl; [contradiction |].
  destruct e; simpl; try (intros H; right; apply IH; exact H).
  intros [<- | H]; [left; reflexivity | right; apply IH; exact H].
Qed.

Lemma idempotent_of_delta (ps : list post) (s : state) (r : res response)
  (s' : state) (d : list event) :
  trace s' = d ++ trace s -> ledger s' = inserts d ++ ledger s ->
  loop_delta ps (ledger s) d ->
  (exists resp, r = Ok resp /\
     forall n, completed resp n -> n = Z.of_nat (List.length (inserts d))) ->
  idempotent_on ps s (r, s').
Proof.
  intros Ht Hl (_ & Hpid & Hdel) (resp & Hr & Hn).
  exists d. simpl. split; [exact Ht |]. split.
  - intros x Hx e He Hd. exact (Hdel x Hx e He Hd).
  - intros Hwarm.
    assert (Hnone : forall e, In e d -> delivers e = false).
    { intros e He. destruct (delivers e) eqn:Hd; [| reflexivity].
      exfalso. destruct (delivers_pid e Hd) as (y & Hy).
      pose proof (Hpid e y He Hy) as Hin.
      apply in_map_iff in Hin as (p & Hp & Hin).
      apply (Hdel y) with e; auto. subst y. apply Hwarm. exact Hin. }
    assert (Hins : inserts d = []).
    { destruct (inserts d) as [| x l] eqn:Hi; [reflexivity |].
      exfalso. assert (Hx : In x (inserts d)) by (rewrite Hi; left; reflexivity).
      apply inserts_delivers in Hx. specialize (Hnone _ Hx). discriminate. }
    split; [rewrite Hl, Hins; reflexivity |]. split; [exact Hnone |].
    exists resp. split; [exact Hr |]. intros n Hc. rewrite (Hn n Hc), Hins. reflexivity.
Qed.

Lemma firstn_incl (n : nat) (ps : list post) (p : post) :
  In p (firstn n ps) -> In p ps.
Proof.
  revert ps. induction n as [| n IH]; intros ps; simpl; [contradiction |].
  destruct ps as [| q ps]; simpl; [contradiction |].
  intros [-> | H]; [left; reflexivity | right; apply IH; exact H].
Qed.

(** C4: in both handlers, a post id already in [synced_posts] when the cycle
    starts gets no Telegram call and no ledger write in that cycle; and when
    every fetched post is already in the ledger, the cycle leaves the ledger
    unchanged, makes no delivery attempt and, if it completes, reports
    [synced: 0]. *)
Theorem synced_posts_not_redelivered (w : world) (req : request) (s : state) :
  idempotent_on (fetched w) s (sync001 w req s) /\
  idempotent_on (fetched w) s (sync000 w req s).
Proof.
  split.
  - pose proof (sync001_step w req s) as H.
    destruct (sync001 w req s) as [r s'].
    destruct H as (d & Ht & Hl & Hd & _ & Hresp).
    assert (Hd' : loop_delta (fetched w) (ledger s) d).
    { destruct Hd as (Hok & Hpid & Hdel). split; [exact Hok |]. split; [| exact Hdel].
      intros e y He Hy. pose proof (Hpid e y He Hy) as Hm.
      apply in_map_iff in Hm as (p & <- & Hp).
      apply in_map. apply firstn_incl with 3. exact Hp. }
    apply (idempotent_of_delta _ s r s' d Ht Hl Hd').
    destruct Hresp as (resp & Hr & Hn). exists resp. split; [exact Hr |].
    intros n Hc. apply (Hn n Hc).
  - pose proof (sync000_step w req s) as H.
    destruct (sync000 w req s) as [r s'].
    destruct H as (d & Ht & Hl & Hd & _ & Hresp).
    apply (idempotent_of_delta _ s r s' d Ht Hl Hd).
    destruct Hresp as (resp & Hr & Hn). exists resp. split; [exact Hr |].
    intros n Hc. apply (Hn n Hc).
Qed.

(** *** C6 *)

(** C6: when any of the four configuration values resolves to a falsy value,
    both handlers answer 400 and leave the state untouched: no event at
    all, hence no network call, is recorded. *)
Theorem missing_config_no_network (w : world) (req : request) (s : state)
  (Hmiss : config_missing w req) :
  sync001 w req s =
    (Ok (mk_resp 400 [("error", JStr "Missing configuration. Please check your settings.")]), s) /\
  sync000 w req s = (Ok (mk_resp 400 [("error", JStr "Missing configuration")]), s).
Proof.
  unfold sync001, sync000, try_catch, bind, ret.
  destruct Hmiss as [H | [H | [H | H]]]; rewrite H; rewrite ?andb_false_r;
    simpl; split; reflexivity.
Qed.

(** *** C10 *)

(** C10: a new post with no usable [images] entry and no [content] makes
    [post.content.match] raise before any Telegram call: [part_001] catches
    it and logs it, [part_000] lets it escape the iteration; in both, the
    post is neither sent nor written to the ledger. *)
Theorem post_without_body_not_delivered (w : world) (bot : jsval) (p : post)
  (cnt : nat) (s : state)
  (Himg : truthy (first_image p) = false) (Hbody : p_content p = None)
  (Hnew : mem (p_id p) (ledger s) = false) :
  process001 w bot p cnt s =
    (Ok cnt, {| ledger := ledger s;
                trace := ELog ("Error processing post " ++ p_id p ++ ": "
                               ++ TypeError_match)%string
                         :: ECheck (p_id p) :: trace s |}) /\
  process000 w bot p cnt s =
    (Exc TypeError_match, {| ledger := ledger s; trace := ECheck (p_id p) :: trace s |}).
Proof.
  unfold process001, process_body001, process000, try_catch, bind, db_exists,
    resolve_image, emit, throw, ret.
  simpl. rewrite Hnew.
  destruct (first_image p) eqn:Hf; simpl in Himg; try discriminate;
    try (rewrite Hbody; split; reflexivity).
  apply negb_false_iff in Himg. rewrite Himg, Hbody. split; reflexivity.
Qed.

(** ** Sample inputs *)

(** *** C6 witness *)

Lemma missing_config_no_network_witness :
  config_missing (mk_world (firstn 3 cfg_settings) (feed []) (tg_always true)) no_override /\
  sync001 (mk_world (firstn 3 cfg_settings) (feed []) (tg_always true)) no_override empty_state =
    (Ok (mk_resp 400 [("error", JStr "Missing configuration. Please check your settings.")]),
     empty_state) /\
  sync000 (mk_world (firstn 3 cfg_settings) (feed []) (tg_always true)) no_override empty_state =
    (Ok (mk_resp 400 [("error", JStr "Missing configuration")]), empty_state).
Proof.
  assert (H : config_missing (mk_world (firstn 3 cfg_settings) (feed []) (tg_always true))
                no_override) by (right; right; right; reflexivity).
  split; [exact H |].
  exact (missing_config_no_network _ _ empty_state H).
Defined.

(** *** C10 witness *)

Lemma post_without_body_not_delivered_witness :
  process001 (mk_world cfg_settings (feed []) (tg_always true)) (JStr "tok")
    (bare_post "p1") 0 empty_state =
    (Ok 0, {| ledger := [];
              trace := [ELog ("Error processing post p1: " ++ TypeError_match)%string;
                        ECheck "p1"] |}) /\
  process000 (mk_world cfg_settings (feed []) (tg_always true)) (JStr "tok")
    (bare_post "p1") 0 empty_state =
    (Exc TypeError_match, {| ledger := []; trace := [ECheck "p1"] |}).
Proof.
  exact (post_without_body_not_delivered (mk_world cfg_settings (feed []) (tg_always true))
           (JStr "tok") (bare_post "p1") 0 empty_state
           eq_refl eq_refl eq_refl).
Defined.

(** *** C2 *)

(** C2 (part_000 diverges from part_001): with the posts [p1] (no body, no
    image) then [p2], Telegram answering [ok]: the [part_000] handler lets
    the TypeError of [p1] escape its loop, answers 500 and never looks at
    [p2]; the [part_001] handler logs the failure of [p1], then delivers and
    records [p2]. *)
Theorem one_bad_post_aborts_part000_cycle :
  sync000 c2_world no_override empty_state =
    (Ok (mk_resp 500 [("error", JStr TypeError_match)]),
     {| ledger := [];
        trace := [ELog ("Sync Error: " ++ TypeError_match)%string; ECheck "p1";
                  EFetchBlogger (blogger_url (JStr "42") (JStr "key"))] |}) /\
  fst (sync001 c2_world no_override empty_state) =
    Ok (mk_resp 200 [("message", JStr "Sync complete"); ("synced", JNum 1)]) /\
  ledger (snd (sync001 c2_world no_override empty_state)) = ["p2"].
Proof. vm_compute. split; [reflexivity | split; reflexivity]. Qed.

(** *** C7 *)

(** C7 (part_000 diverges from part_001): on a Blogger reply that reports an
    error object, the [part_001] handler answers 400 with the upstream
    message, while the [part_000] handler, which never reads [data.error],
    answers 200 [No posts found] as for an empty feed. *)
Theorem upstream_error_read_as_empty_feed_by_part000 :
  fst (sync000 c7_world no_override empty_state) =
    Ok (mk_resp 200 [("message", JStr "No posts found"); ("synced", JNum 0)]) /\
  fst (sync001 c7_world no_override empty_state) =
    Ok (mk_resp 400 [("error", JStr "Blogger API Error: API key not valid.")]).
Proof. vm_compute. split; reflexivity. Qed.

(** *** C9 *)

Lemma js_or_blank (v x : jsval) : js_or (blank_as_absent v) x = js_or v x.
Proof.
  destruct v; try reflexivity. simpl.
  destruct (String.eqb s EmptyString) eqn:He; [| reflexivity].
  unfold js_or. simpl. rewrite He. reflexivity.
Qed.

(** C9: an override or a stored setting equal to the empty string counts as
    absent.  Replacing every empty-string override by an absent field does
    not change either handler, and a stored value equal to the empty string
    makes [getSetting] return the environment value. *)
Theorem empty_string_config_falls_through (w : world) (req : request) (s : state) :
  sync001 w (req_blank_as_absent req) s = sync001 w req s /\
  sync000 w (req_blank_as_absent req) s = sync000 w req s /\
  (forall key, assoc key (w_settings w) = Some (Some EmptyString) ->
     getSetting w key = of_opt (assoc key (w_env w))).
Proof.
  split; [| split].
  - unfold sync001, req_blank_as_absent. cbn [r_api_key r_blog_id r_bot_token r_chat_id].
    rewrite !js_or_blank. reflexivity.
  - unfold sync000, req_blank_as_absent. cbn [r_api_key r_blog_id r_bot_token r_chat_id].
    rewrite !js_or_blank. reflexivity.
  - intros key Hk. unfold getSetting. rewrite Hk. reflexivity.
Qed.

(** *** C3 *)

(** C3 (amended): the [part_001] handler reads the ledger for at most the
    first three fetched posts, and for exactly those when it completes; a
    post id that is not among the first three gets no ledger read, no
    Telegram call and no ledger write, and its ledger membership is
    unchanged.  The [part_000] handler has no cap: when it completes it has
    read the ledger once for every fetched post. *)
Theorem only_first_three_posts_examined (w : world) (req : request) (s : state) :
  capped_cycle w s (sync001 w req s) /\ uncapped_cycle w s (sync000 w req s).
Proof.
  split.
  - pose proof (sync001_step w req s) as H.
    destruct (sync001 w req s) as [r s'].
    destruct H as (d & Ht & Hl & (_ & Hpid & _) & Hc & resp & Hr & Hn).
    exists d. simpl. split; [exact Ht |]. split; [exact Hc |]. split.
    + intros x Hx.
      assert (Hno : forall e, In e d -> ev_pid e <> Some x).
      { intros e He Hy. apply Hx. exact (Hpid e x He Hy). }
      split; [exact Hno |].
      rewrite Hl. split; [| intros Hin; apply in_or_app; right; exact Hin].
      intros Hin. apply in_app_or in Hin as [Hin | Hin]; [| exact Hin].
      exfalso. apply inserts_delivers in Hin. exact (Hno _ Hin eq_refl).
    + exists resp. split; [exact Hr |]. intros n Hcmp. apply (Hn n Hcmp).
  - pose proof (sync000_step w req s) as H.
    destruct (sync000 w req s) as [r s'].
    destruct H as (d & Ht & _ & _ & _ & resp & Hr & Hn).
    exists d. simpl. split; [exact Ht |].
    exists resp. split; [exact Hr |]. intros n Hcmp. apply (Hn n Hcmp).
Qed.

(** C3 counterexample: four new posts, Telegram answering [ok]: the
    [part_000] handler reads the ledger for the fourth post, sends it and
    records it in the same cycle. *)
Lemma fourth_post_processed_by_part000 :
  ledger (snd (sync000 c3_world no_override empty_state)) = ["p4"; "p3"; "p2"; "p1"] /\
  In (ECheck "p4") (trace (snd (sync000 c3_world no_override empty_state))) /\
  fst (sync000 c3_world no_override empty_state) =
    Ok (mk_resp 200 [("message", JStr "Sync complete"); ("synced", JNum 4)]).
Proof.
  vm_compute. split; [reflexivity |]. split; [| reflexivity].
  repeat first [left; reflexivity | right].
Qed.

(** *** C5 *)

(** [resolve_image] reads no state and changes none. *)
Lemma resolve_image_const (p : post) (s : state) :
  resolve_image p s = (fst (resolve_image p empty_state), s).
Proof.
  unfold resolve_image, ret, throw.
  destruct (first_image p) as [| | b | z | u | fs]; try reflexivity;
    try (destruct (p_content p); reflexivity).
  destruct (String.eqb u EmptyString); [destruct (p_content p) |]; reflexivity.
Qed.

Lemma sync001_items (w : world) (req : request) (s : state) (data : blog_data)
  (l : list post) :
  config_present w req -> w_blogger w = Some (Some data) ->
  truthy (b_error data) = false -> b_items data = Some l ->
  let '(r, s') := sync001 w req s in
  exists d, ledger s' = inserts d ++ ledger s /\
    r = Ok (mk_resp 200 [("message", JStr "Sync complete");
                         ("synced", JNum (Z.of_nat (List.length (inserts d))))]).
Proof.
  intros (H1 & H2 & H3 & H4) Hb He Hi.
  unfold sync001, try_catch, bind, fetch_blogger, emit, throw, ret.
  cbn -[firstn loop001 blogger_url js_or getSetting js_get js_str].
  rewrite H1, H2, H3, H4. cbn -[firstn loop001 blogger_url js_or getSetting js_get js_str].
  rewrite Hb, He, Hi. cbn -[firstn loop001 blogger_url js_or getSetting js_get js_str].
  use_loop loop001 loop001_step.
  destruct HL as (d & _ & Hl & _ & _ & ->). cbn [ledger] in Hl.
  exists d. split; [exact Hl | f_equal].
Qed.


(** C5 (amended): in the [part_001] handler, for a new post whose image
    resolves to [u] (from [images[0].url] or, failing that, from the
    [<img src>] scan of [content]), a non-ok photo response whose body
    parses is followed by exactly one text-only [sendMessage] call carrying
    the same composed message and no photo.  If that call is [ok], the post
    is written to the ledger once and counted once; if it is not, no
    further call is made, the post is neither written nor counted, and no
    error is raised; and a cycle whose configuration is present and whose
    Blogger reply has [items] and no [error] still answers 200 [Sync
    complete].  The helper [sendToTelegram] (not called by either handler)
    makes the same single text-only retry and raises when it fails. *)
Theorem photo_failure_single_text_retry (w : world) (bot : jsval) (p : post)
  (cnt : nat) (s : state) (u : string) (r1 : tg_resp)
  (Hnew : mem (p_id p) (ledger s) = false)
  (Himg : fst (resolve_image p s) = Ok (Some u))
  (Hr1 : w_tg w (S (List.length (trace s))) = Some r1)
  (Hfail : tg_ok r1 = false) (Hjson : tg_json r1 = true) :
  process001 w bot p cnt s = retry_outcome001 w bot p cnt u r1 s /\
  (forall req s0 data l,
     config_present w req -> w_blogger w = Some (Some data) ->
     truthy (b_error data) = false -> b_items data = Some l ->
     exists n, fst (sync001 w req s0) =
       Ok (mk_resp 200 [("message", JStr "Sync complete"); ("synced", JNum (Z.of_nat n))])) /\
  (forall w' m url u' r1' s',
     truthy (getSetting w' "TELEGRAM_BOT_TOKEN") = true ->
     truthy (getSetting w' "TELEGRAM_CHANNEL_ID") = true ->
     String.eqb u' EmptyString = false ->
     w_tg w' (List.length (trace s')) = Some r1' ->
     tg_ok r1' = false -> tg_json r1' = true ->
     sendToTelegram w' m url (Some u') s' = send_retry_outcome w' m url u' r1' s').
Proof.
  rewrite resolve_image_const in Himg. cbn [fst] in Himg.
  split; [| split].
  - unfold process001, process_body001, retry_outcome001, try_catch, bind, db_exists,
      fetch_tg, db_insert, tg_json_body, emit, ret, throw.
    cbn -[full_message extractMovieDetails001 tg_photo_url tg_message_url mem resolve_image].
    rewrite Hnew, resolve_image_const, Himg.
    cbn -[full_message extractMovieDetails001 tg_photo_url tg_message_url mem].
    rewrite Hr1, Hfail, Hjson.
    cbn -[full_message extractMovieDetails001 tg_photo_url tg_message_url mem].
    rewrite ?Hnew.
    destruct (w_tg w (S (S (List.length (trace s))))) as [r2 |]; [| reflexivity].
    destruct (tg_ok r2);
      cbn -[full_message extractMovieDetails001 tg_photo_url tg_message_url mem];
      rewrite ?Hnew; reflexivity.
  - intros req s0 data l Hc Hb He Hi.
    pose proof (sync001_items w req s0 data l Hc Hb He Hi) as H.
    destruct (sync001 w req s0) as [r s1].
    destruct H as (d & _ & ->). exists (List.length (inserts d)). reflexivity.
  - intros w' m url u' r1' s' Hbot Hchat Hu' Hr1' Hfail' Hjson'.
    unfold sendToTelegram, send_body, send_retry_outcome, bind, fetch_tg,
      tg_json_body, ret, throw.
    rewrite Hbot, Hchat. simpl truthy. cbn [negb andb of_opt].
    cbn -[tg_photo_url tg_message_url getSetting download_sep].
    rewrite Hu'. cbn -[tg_photo_url tg_message_url getSetting download_sep].
    rewrite Hr1', Hfail', Hjson'.
    cbn -[tg_photo_url tg_message_url getSetting download_sep].
    rewrite ?Hbot, ?Hchat. cbn -[tg_photo_url tg_message_url getSetting download_sep].
    destruct (w_tg w' (S (List.length (trace s')))) as [r2 |]; [| reflexivity].
    destruct (tg_ok r2); [reflexivity |]. destruct (tg_json r2); reflexivity.
Qed.

Lemma photo_failure_single_text_retry_witness :
  process001 c5_world (JStr "tok") content_image_post 0 empty_state =
    retry_outcome001 c5_world (JStr "tok") content_image_post 0
      "https://img.example/a.jpg" tg_failed empty_state /\
  fst (retry_outcome001 c5_world (JStr "tok") content_image_post 0
         "https://img.example/a.jpg" tg_failed empty_state) = Ok 1 /\
  process001 c5_world (JStr "tok") (photo_post "p1") 0 empty_state =
    retry_outcome001 c5_world (JStr "tok") (photo_post "p1") 0
      "https://img.example/p1.jpg" tg_failed empty_state /\
  config_present c5_world no_override /\
  exists n, fst (sync001 c5_world no_override empty_state) =
    Ok (mk_resp 200 [("message", JStr "Sync complete"); ("synced", JNum (Z.of_nat n))]).
Proof.
  assert (Hcfg : config_present c5_world no_override) by (repeat split).
  split; [| split; [| split; [| split]]].
  - exact (proj1 (photo_failure_single_text_retry c5_world (JStr "tok") content_image_post 0
             empty_state "https://img.example/a.jpg" tg_failed
             eq_refl ltac:(vm_compute; reflexivity) eq_refl eq_refl eq_refl)).
  - vm_compute. reflexivity.
  - exact (proj1 (photo_failure_single_text_retry c5_world (JStr "tok") (photo_post "p1") 0
             empty_state "https://img.example/p1.jpg" tg_failed
             eq_refl ltac:(vm_compute; reflexivity) eq_refl eq_refl eq_refl)).
  - exact Hcfg.
  - exact (proj1 (proj2 (photo_failure_single_text_retry c5_world (JStr "tok") (photo_post "p1") 0
             empty_state "https://img.example/p1.jpg" tg_failed
             eq_refl ltac:(vm_compute; reflexivity) eq_refl eq_refl eq_refl))
             no_override empty_state
             {| b_error := JUndef; b_items := Some [photo_post "p1"] |} [photo_post "p1"]
             Hcfg eq_refl eq_refl eq_refl).
Defined.

(** C5 counterexample: when both the photo call and the text-only retry
    fail, the [part_001] cycle raises nothing and logs nothing: it answers
    200 [Sync complete] with [synced: 0], and its trace holds just the two
    calls. *)
Lemma failed_retry_not_surfaced :
  sync001 c5_world_down no_override empty_state =
    (Ok (mk_resp 200 [("message", JStr "Sync complete"); ("synced", JNum 0)]),
     {| ledger := [];
        trace := [ESend "p1" (tg_message_url (JStr "tok")) p1_message None (Some tg_failed);
                  ESend "p1" (tg_photo_url (JStr "tok")) p1_message
                    (Some "https://img.example/p1.jpg") (Some tg_failed);
                  ECheck "p1";
                  EFetchBlogger (blogger_url (JStr "42") (JStr "key"))] |}).
Proof. vm_compute. reflexivity. Qed.

(** *** C8 *)

Ltac shape_tac :=
  unfold response_shape; simpl;
  first [left; eexists; reflexivity
        | right; left; reflexivity
        | right; right; eexists; reflexivity].

(** C8 (amended): neither handler returns an examined count or a per-post
    error list: every answer is [{error}], [{message: No posts found,
    synced: 0}] or [{message: Sync complete, synced: n}].  In [part_001]
    the 500 answer only comes from a failed Blogger call or JSON decoding,
    and with the configuration present and Blogger items without error the
    answer is always 200 [Sync complete], [n] being the number of posts
    written to the ledger in the cycle, whatever failed for single posts. *)
Theorem sync_result_has_no_error_list (w : world) (req : request) (s : state) :
  outcome001 w req s (sync001 w req s) /\ outcome000 (sync000 w req s).
Proof.
  split.
  - unfold outcome001, config_present, sync001, try_catch, bind, fetch_blogger,
      emit, throw, ret.
    cbn -[firstn loop001 blogger_url]. split_matches; cbn -[firstn loop001 blogger_url].
    all: try use_loop loop001 loop001_step.
    all: cbn -[firstn loop001 blogger_url] in *.
    all: try (eexists; split; [reflexivity |]; split; [shape_tac |];
              split; [simpl; auto |]; split;
              [intros Hs; simpl in Hs; try discriminate; auto |];
              intros data ll (H1 & H2 & H3 & H4) Hb He Hi; simpl in *;
              try congruence;
              exfalso;
              repeat match goal with
                     | H : negb _ = true |- _ => apply negb_true_iff in H
                     | H : (_ && _) = false |- _ => apply andb_false_iff in H as [H | H]
                     end; congruence).
    destruct HL as (d & Ht & _ & _ & _ & ->).
    cbn -[firstn blogger_url inserts].
    eexists; split; [reflexivity |]. split; [shape_tac |].
    split; [simpl; auto |]. split; [intros Hs; simpl in Hs; discriminate |].
    intros data ll _ Hb He Hi.
    exists (d ++ [EFetchBlogger (blogger_url
      (js_or (r_blog_id req) (getSetting w "BLOGGER_BLOG_ID"))
      (js_or (r_api_key req) (getSetting w "BLOGGER_API_KEY")))]).
    rewrite Ht, <- app_assoc. split; [reflexivity |].
    rewrite inserts_app. simpl inserts. rewrite app_nil_r.
    split; reflexivity.
  - unfold outcome000, sync000, try_catch, bind, fetch_blogger, emit, throw, ret.
    cbn -[loop000 blogger_url]. split_matches; cbn -[loop000 blogger_url].
    all: try (eexists; split; [reflexivity | shape_tac]).
    all: match goal with
         | |- context [loop000 ?a ?b ?c ?d ?e] => destruct (loop000 a b c d e) as [r1 s1]
         end.
    all: destruct r1; eexists; split; try reflexivity; shape_tac.
Qed.

(** C8 counterexample: in the [part_001] cycle of C2's input, post [p1]
    fails (its TypeError is logged) and [p2] is delivered; the answer is
    [{message: Sync complete, synced: 1}], with no entry for [p1]. *)
Lemma failed_post_absent_from_result :
  fst (sync001 c2_world no_override empty_state) =
    Ok (mk_resp 200 [("message", JStr "Sync complete"); ("synced", JNum 1)]) /\
  In (ELog ("Error processing post p1: " ++ TypeError_match)%string)
     (trace (snd (sync001 c2_world no_override empty_state))).
Proof.
  vm_compute. split; [reflexivity |].
  repeat first [left; reflexivity | right].
Qed.

(** ** Further properties of the servers and the dashboard *)

(** *** Settings *)

Lemma assoc_filter_other {V} (k k' : string) (l : list (string * V)) :
  String.eqb k' k = false ->
  assoc k' (filter (fun kv => negb (String.eqb (fst kv) k)) l) = assoc k' l.
Proof.
  intros Hne. induction l as [| [k0 v] l IH]; cbn [filter assoc fst]; [reflexivity |].
  destruct (String.eqb k0 k) eqn:H0; cbn [negb assoc].
  - apply String.eqb_eq in H0. subst k0. rewrite Hne. exact IH.
  - rewrite IH. reflexivity.
Qed.

(** [setSetting(key, value)] followed by [getSetting]: the key just written
    reads back [value] when it is non-empty and the environment variable
    otherwise; every other key reads as before. *)
Theorem setSetting_then_getSetting (w : world) (key key' value : string) :
  getSetting (setSetting w key value) key' =
    if String.eqb key' key then js_or (JStr value) (of_opt (assoc key' (w_env w)))
    else getSetting w key'.
Proof.
  unfold getSetting, setSetting. cbn [w_settings w_env assoc fst].
  destruct (String.eqb key' key) eqn:Hk; [reflexivity |].
  rewrite assoc_filter_other by exact Hk. reflexivity.
Qed.

(** *** Status *)

Lemma truthy_or_empty (v : jsval) : truthy (js_or v (JStr EmptyString)) = truthy v.
Proof. unfold js_or. destruct (truthy v) eqn:H; [exact H | reflexivity]. Qed.

Lemma sync000_config_present (w : world) (req : request) (s : state) :
  config_present w req ->
  fst (sync000 w req s) <> Ok (mk_resp 400 [("error", JStr "Missing configuration")]).
Proof.
  intros (H1 & H2 & H3 & H4).
  unfold sync000, try_catch, bind, fetch_blogger, emit, throw, ret.
  cbn -[loop000 blogger_url js_or getSetting]. rewrite H1, H2, H3, H4.
  cbn -[loop000 blogger_url js_or getSetting].
  split_matches; cbn -[loop000 blogger_url js_or getSetting]; try discriminate.
  match goal with
  | |- context [loop000 ?a ?b ?c ?d ?e] => destruct (loop000 a b c d e) as [[c1 | e1] s1]
  end; cbn; discriminate.
Qed.

Lemma sync001_config_present (w : world) (req : request) (s : state) :
  config_present w req ->
  fst (sync001 w req s) <>
    Ok (mk_resp 400 [("error", JStr "Missing configuration. Please check your settings.")]).
Proof.
  intros (H1 & H2 & H3 & H4).
  unfold sync001, try_catch, bind, fetch_blogger, emit, throw, ret.
  cbn -[firstn loop001 blogger_url js_or getSetting js_get]. rewrite H1, H2, H3, H4.
  cbn -[firstn loop001 blogger_url js_or getSetting js_get].
  split_matches; cbn -[firstn loop001 blogger_url js_or getSetting js_get];
    try discriminate.
  match goal with
  | |- context [loop001 ?a ?b ?c ?d ?e] => destruct (loop001 a b c d e) as [[c1 | e1] s1]
  end; cbn; discriminate.
Qed.

Lemma status000_configured (w : world) (s : state) :
  js_get (JObj (status000 w s)) "configured" =
    JBool (truthy (getSetting w "BLOGGER_API_KEY") && truthy (getSetting w "BLOGGER_BLOG_ID")
           && truthy (getSetting w "TELEGRAM_BOT_TOKEN")
           && truthy (getSetting w "TELEGRAM_CHANNEL_ID")).
Proof.
  unfold status000, status_settings. cbn -[getSetting js_or truthy].
  rewrite !truthy_or_empty. reflexivity.
Qed.

Lemma js_or_undef (x : jsval) : js_or JUndef x = x.
Proof. reflexivity. Qed.

(** [GET /api/status] of [part_000] reports [configured: true] exactly when
    a sync request with an empty body gets past the configuration check, in
    either handler: [configured: false] goes with the 400 [Missing
    configuration] answer and [configured: true] never does. *)
Theorem status_configured_iff_sync_configured (w : world) (s : state) :
  (js_get (JObj (status000 w s)) "configured" = JBool true <->
     fst (sync000 w no_override s) <> Ok (mk_resp 400 [("error", JStr "Missing configuration")])) /\
  (js_get (JObj (status000 w s)) "configured" = JBool true <->
     fst (sync001 w no_override s) <>
       Ok (mk_resp 400 [("error", JStr "Missing configuration. Please check your settings.")])).
Proof.
  rewrite status000_configured.
  destruct (truthy (getSetting w "BLOGGER_API_KEY") && truthy (getSetting w "BLOGGER_BLOG_ID")
            && truthy (getSetting w "TELEGRAM_BOT_TOKEN")
            && truthy (getSetting w "TELEGRAM_CHANNEL_ID")) eqn:Hc.
  - repeat rewrite andb_true_iff in Hc. destruct Hc as (((H1 & H2) & H3) & H4).
    assert (Hp : config_present w no_override) by (repeat split; assumption).
    split; split; intros _; [apply sync000_config_present | reflexivity
                            | apply sync001_config_present | reflexivity];
      exact Hp.
  - split; split; intros H; try discriminate; exfalso; apply H;
      unfold sync000, sync001, try_catch, bind, ret, no_override;
      cbn [r_api_key r_blog_id r_bot_token r_chat_id];
      rewrite !js_or_undef, Hc; reflexivity.
Qed.

(** After a cycle that answers [Sync complete] with [synced: n], the
    [syncedCount] of [GET /api/status] has grown by exactly [n], in both
    servers. *)
Theorem status_count_grows_by_synced (w : world) (req : request) (s : state) :
  (forall resp n, fst (sync001 w req s) = Ok resp -> completed resp n ->
     js_get (JObj (status001 (snd (sync001 w req s)))) "syncedCount" =
       JNum (Z.of_nat (List.length (ledger s)) + n)) /\
  (forall resp n, fst (sync000 w req s) = Ok resp -> completed resp n ->
     js_get (JObj (status000 w (snd (sync000 w req s)))) "syncedCount" =
       JNum (Z.of_nat (List.length (ledger s)) + n)).
Proof.
  split; intros resp n.
  - pose proof (sync001_step w req s) as H.
    destruct (sync001 w req s) as [r s']. cbn [fst snd].
    destruct H as (d & _ & Hl & _ & _ & resp' & -> & Hn).
    intros Heq Hc. injection Heq as <-. destruct (Hn n Hc) as (_ & ->).
    unfold status001. cbn -[Z.of_nat List.length]. rewrite Hl, length_app. f_equal. lia.
  - pose proof (sync000_step w req s) as H.
    destruct (sync000 w req s) as [r s']. cbn [fst snd].
    destruct H as (d & _ & Hl & _ & _ & resp' & -> & Hn).
    intros Heq Hc. injection Heq as <-. destruct (Hn n Hc) as (_ & ->).
    unfold status000. cbn -[Z.of_nat List.length status_settings]. rewrite Hl, length_app.
    f_equal. lia.
Qed.

(** *** Tags and snippets *)

Lemma substring_length_le (n m : nat) (s : string) :
  String.length (substring n m s) <= m.
Proof.
  revert n m. induction s as [| c s IH]; intros [| n] [| m]; cbn; try lia.
  - specialize (IH 0 m). lia.
  - apply IH.
  - apply IH.
Qed.

Lemma has_gt_prefix (n : nat) (s : string) :
  has_gt (substring 0 n s) = true -> has_gt s = true.
Proof.
  revert n. induction s as [| c s IH]; intros [| n]; cbn [substring has_gt];
    try discriminate; auto.
  intros H. apply orb_true_iff in H as [H | H].
  - rewrite H. reflexivity.
  - rewrite (IH n H). apply orb_true_r.
Qed.

Lemma no_tag_prefix (n : nat) (s : string) :
  no_tag s = true -> no_tag (substring 0 n s) = true.
Proof.
  revert n. induction s as [| c s IH]; intros [| n]; cbn [substring no_tag]; auto.
  intros H. apply andb_true_iff in H as (Hc & Hs).
  apply andb_true_iff. split; [| apply IH; exact Hs].
  apply orb_true_iff in Hc as [Hc | Hc]; apply orb_true_iff; [left; exact Hc | right].
  apply negb_true_iff in Hc. apply negb_true_iff.
  destruct (has_gt (substring 0 n s)) eqn:Hp; [| reflexivity].
  rewrite (has_gt_prefix n s Hp) in Hc. exact Hc.
Qed.

Lemma prefix_gt (c : ascii) (r : string) :
  String.prefix (String ">" EmptyString) (String c r) = Ascii.eqb c ">".
Proof.
  destruct (Ascii.eqb c ">") eqn:E.
  - apply Ascii.eqb_eq in E. subst c. vm_compute. destruct r; reflexivity.
  - apply Ascii.eqb_neq in E. cbn [String.prefix].
    destruct (ascii_dec ">" c) as [H | H]; [congruence | reflexivity].
Qed.

Lemma index_gt_none (r : string) :
  String.index 0 (String ">" EmptyString) r = None -> has_gt r = false.
Proof.
  induction r as [| c r IH]; [reflexivity |].
  cbn [String.index]. rewrite prefix_gt. cbn [has_gt].
  destruct (Ascii.eqb c ">"); [discriminate |].
  destruct (String.index 0 (String ">" EmptyString) r); [discriminate |].
  intros _. apply IH. reflexivity.
Qed.

Lemma index_gt_some (r : string) (k : nat) :
  String.index 0 (String ">" EmptyString) r = Some k -> has_gt r = true.
Proof.
  revert k. induction r as [| c r IH]; intros k; [discriminate |].
  cbn [String.index]. rewrite prefix_gt. cbn [has_gt].
  destruct (Ascii.eqb c ">"); [reflexivity |].
  destruct (String.index 0 (String ">" EmptyString) r) as [k' |] eqn:Hi; [| discriminate].
  intros _. apply (IH k'). reflexivity.
Qed.

Lemma strip_tags_no_gt (fuel : nat) (s : string) :
  has_gt s = false -> has_gt (strip_tags_fuel fuel s) = false.
Proof.
  revert s. induction fuel as [| fuel IH]; intros s Hs; [exact Hs |].
  destruct s as [| c r]; [reflexivity |].
  cbn [has_gt] in Hs. apply orb_false_iff in Hs as (Hc & Hr).
  cbn [strip_tags_fuel].
  destruct (Ascii.eqb c "<").
  - destruct (String.index 0 ">" r) as [k |] eqn:Hi.
    + apply index_gt_some in Hi. congruence.
    + cbn [has_gt]. rewrite Hc. apply IH. exact Hr.
  - cbn [has_gt]. rewrite Hc. apply IH. exact Hr.
Qed.

Lemma strip_tags_fuel_no_tag (fuel : nat) (s : string) :
  String.length s <= fuel -> no_tag (strip_tags_fuel fuel s) = true.
Proof.
  revert s. induction fuel as [| fuel IH]; intros s Hlen.
  - destruct s; [reflexivity | cbn in Hlen; lia].
  - destruct s as [| c r]; [reflexivity |].
    cbn in Hlen. cbn [strip_tags_fuel].
    destruct (Ascii.eqb c "<") eqn:Hc.
    + destruct (String.index 0 ">" r) as [k |] eqn:Hi.
      * apply IH. pose proof (substring_length_le (S k) (String.length r) r). lia.
      * cbn [no_tag]. rewrite Hc. cbn [negb orb].
        rewrite (strip_tags_no_gt fuel r (index_gt_none r Hi)).
        apply IH. lia.
    + cbn [no_tag]. rewrite Hc. cbn [negb orb andb]. apply IH. lia.
Qed.

(** Removing the matches of [/<[^>]*>/g] from [content] leaves no complete tag: no [<] of
    the result has a [>] after it. *)
Lemma strip_tags_no_tag (s : string) : no_tag (strip_tags s) = true.
Proof. apply strip_tags_fuel_no_tag. lia. Qed.

(** [extractMovieDetails] of [part_001] always gives [<b>TITLE</b>], two
    newlines and a snippet of at most 200 characters followed by [...];
    TITLE is the post title, or [New Movie Post] when the title is missing
    or empty; the snippet holds no complete HTML tag. *)
Theorem extractMovieDetails001_shape (p : post) :
  exists snippet,
    extractMovieDetails001 p =
      ("<b>" ++ shown_title p ++ "</b>" ++ nl ++ nl ++ snippet ++ "...")%string /\
    String.length snippet <= 200 /\ no_tag snippet = true.
Proof.
  exists (substring 0 200 (strip_tags (js_str (js_or (of_opt (p_content p)) (JStr EmptyString))))).
  split; [| split].
  - unfold extractMovieDetails001, shown_title.
    destruct (p_title p) as [t |]; [| reflexivity].
    unfold js_or. cbn [of_opt truthy].
    destruct (String.eqb t EmptyString); reflexivity.
  - apply substring_length_le.
  - apply no_tag_prefix. apply strip_tags_no_tag.
Qed.

(** *** The image pattern *)

Lemma take_until_chars (stop : ascii -> bool) (s : string) :
  all_chars (fun c => negb (stop c)) (take_until stop s) = true.
Proof.
  induction s as [| c s IH]; cbn [take_until]; [reflexivity |].
  destruct (stop c) eqn:Hc; [reflexivity |].
  cbn [all_chars]. rewrite Hc, IH. reflexivity.
Qed.

Lemma src_match_capture (u cap : string) :
  src_match u = Some cap ->
  cap <> EmptyString /\ all_chars (fun c => negb (is_quote_or_gt c)) cap = true.
Proof.
  unfold src_match.
  destruct (String.prefix _ u); [| discriminate].
  match goal with |- context [take_until is_quote_or_gt ?v] =>
    pose proof (take_until_chars is_quote_or_gt v) as Hall;
    destruct (take_until is_quote_or_gt v) as [| c0 r0] eqn:Ht
  end; [discriminate |].
  destruct (String.get _ _) as [c |]; [| discriminate].
  destruct (Ascii.eqb c dquote); [| discriminate].
  intros Heq. injection Heq as <-. split; [discriminate | exact Hall].
Qed.

Lemma try_lengths_capture (j : nat) (t cap : string) :
  try_lengths j t = Some cap ->
  cap <> EmptyString /\ all_chars (fun c => negb (is_quote_or_gt c)) cap = true.
Proof.
  induction j as [| j IH]; cbn [try_lengths]; [discriminate |].
  destruct (src_match _) as [c |] eqn:Hs.
  - intros Heq. injection Heq as <-. exact (src_match_capture _ _ Hs).
  - exact IH.
Qed.

(** The URL [post.content.match(/<img[^>]+src=Q([^Q>]+)Q/)[1]] picks up
    (Q the double quote) is never empty and contains neither a double quote
    nor [>]. *)
Theorem img_match_capture (content cap : string) :
  img_match content = Some cap ->
  cap <> EmptyString /\ all_chars (fun c => negb (is_quote_or_gt c)) cap = true.
Proof.
  induction content as [| c rest IH]; cbn [img_match]; [discriminate |].
  destruct (if String.prefix "<img" (String c rest) then _ else None) as [cap' |] eqn:Hh.
  - intros Heq. injection Heq as <-.
    destruct (String.prefix "<img" (String c rest)); [| discriminate].
    exact (try_lengths_capture _ _ _ Hh).
  - exact IH.
Qed.

(** *** Where the picture comes from *)

(** In [part_001], a new post whose [images[0].url] is a non-empty string is
    sent to [sendPhoto] with that URL, and its [content] is never read: a
    post without [content] goes through, and is recorded and counted once
    Telegram answers [ok]. *)
Theorem first_image_wins_part001 (w : world) (bot : jsval) (p : post) (cnt : nat)
  (s : state) (u : string) (rest : list (option string)) (r : tg_resp)
  (Himg : p_images p = Some (Some u :: rest)) (Hu : String.eqb u EmptyString = false)
  (Hnew : mem (p_id p) (ledger s) = false)
  (Hr : w_tg w (S (List.length (trace s))) = Some r) (Hok : tg_ok r = true) :
  process001 w bot p cnt s =
    (Ok (S cnt),
     {| ledger := p_id p :: ledger s;
        trace := EInsert (p_id p)
                 :: ESend (p_id p) (tg_photo_url bot) (full_message (extractMovieDetails001 p) p)
                      (Some u) (Some r)
                 :: ECheck (p_id p) :: trace s |}).
Proof.
  unfold process001, process_body001, try_catch, bind, db_exists, resolve_image,
    first_image, fetch_tg, db_insert, emit, ret, throw.
  rewrite Himg. cbn -[full_message extractMovieDetails001 tg_photo_url tg_message_url mem].
  rewrite Hnew, Hu. cbn -[full_message extractMovieDetails001 tg_photo_url tg_message_url mem].
  rewrite Hr, Hok. cbn -[full_message extractMovieDetails001 tg_photo_url tg_message_url mem].
  rewrite Hnew. reflexivity.
Qed.

(** *** [sendToTelegram] *)

(** Without a truthy bot token and channel id in the settings (or the
    environment), [sendToTelegram] throws [Telegram credentials missing]
    before any call and leaves the state as it was. *)
Theorem sendToTelegram_needs_credentials (w : world) (m url : string)
  (imageUrl : option string) (s : state)
  (Hcred : truthy (getSetting w "TELEGRAM_BOT_TOKEN")
           && truthy (getSetting w "TELEGRAM_CHANNEL_ID") = false) :
  sendToTelegram w m url imageUrl s = (Exc "Telegram credentials missing", s).
Proof.
  unfold sendToTelegram, send_body, throw. rewrite Hcred. reflexivity.
Qed.

(** [sendToTelegram] never touches the ledger and makes at most two
    Telegram calls, each carrying [message], two newlines, the download
    line and [url]; it resolves exactly when its last call was answered
    [ok]. *)
Theorem sendToTelegram_calls (w : world) (m url : string) (imageUrl : option string)
  (s : state) :
  let '(r, s') := sendToTelegram w m url imageUrl s in
  exists d, trace s' = d ++ trace s /\ ledger s' = ledger s /\ List.length d <= 2 /\
    Forall (helper_call (m ++ download_sep ++ url)) d /\
    (r = Ok tt <-> exists e d', d = e :: d' /\ ok_send_for EmptyString e).
Proof.
  unfold sendToTelegram, send_body, bind, fetch_tg, tg_json_body, ret, throw.
  cbn -[getSetting tg_photo_url tg_message_url download_sep].
  split_matches; cbn -[getSetting tg_photo_url tg_message_url download_sep];
    give_delta; (split; [reflexivity |]); (split; [cbn; lia |]);
    (split; [repeat constructor |]);
    split; try discriminate; try reflexivity;
    try (intros (e & d' & Hd & _); discriminate Hd);
    try (intros (e & d' & Hd & He); injection Hd as <- <-; cbn in He;
         first [destruct He as (_ & He); congruence | contradiction]);
    try (intros _; eexists; eexists; split; [reflexivity | cbn; split; auto]).
Qed.

(** *** The Blogger error check of [part_001] *)

(** In [part_001], once the configuration is present, a Blogger reply with a
    truthy [error] ends the cycle with 400 [Blogger API Error: MSG], MSG
    being [error.message] or [Unknown error]; the [items] the reply may
    also carry are ignored: no ledger read, no Telegram call, no write. *)
Theorem blogger_error_stops_part001 (w : world) (req : request) (s : state)
  (data : blog_data) (Hcfg : config_present w req)
  (Hb : w_blogger w = Some (Some data)) (He : truthy (b_error data) = true) :
  sync001 w req s =
    (Ok (mk_resp 400 [("error", JStr ("Blogger API Error: "
                         ++ js_str (js_or (js_get (b_error data) "message")
                                          (JStr "Unknown error")))%string)]),
     {| ledger := ledger s;
        trace := EFetchBlogger (blogger_url
                   (js_or (r_blog_id req) (getSetting w "BLOGGER_BLOG_ID"))
                   (js_or (r_api_key req) (getSetting w "BLOGGER_API_KEY")))
                 :: trace s |}).
Proof.
  destruct Hcfg as (H1 & H2 & H3 & H4).
  unfold sync001, try_catch, bind, fetch_blogger, emit, throw, ret.
  cbn -[firstn loop001 blogger_url js_or getSetting js_get js_str].
  rewrite H1, H2, H3, H4. cbn -[firstn loop001 blogger_url js_or getSetting js_get js_str].
  rewrite Hb, He. reflexivity.
Qed.

(** *** Which bot the handlers post to *)

Lemma process001_urls (w : world) (bot : jsval) (p : post) (cnt : nat) (s : state) :
  let '(r, s') := process001 w bot p cnt s in
  exists d, trace s' = d ++ trace s /\ Forall (sends_to bot) d.
Proof.
  unfold process001, process_body001, try_catch, bind, db_exists, resolve_image,
    fetch_tg, db_insert, tg_json_body, emit, ret, throw.
  simpl. split_matches; simpl; give_delta;
    repeat apply Forall_cons; try apply Forall_nil; simpl; auto.
Qed.

Lemma process000_urls (w : world) (bot : jsval) (p : post) (cnt : nat) (s : state) :
  let '(r, s') := process000 w bot p cnt s in
  exists d, trace s' = d ++ trace s /\ Forall (sends_to bot) d.
Proof.
  unfold process000, extractMovieDetails000, bind, db_exists, resolve_image,
    fetch_tg, db_insert, emit, ret, throw.
  simpl. split_matches; simpl; give_delta;
    repeat apply Forall_cons; try apply Forall_nil; simpl; auto.
Qed.

Lemma loop001_urls (w : world) (bot : jsval) (ps : list post) (cnt : nat) (s : state) :
  let '(r, s') := loop001 w bot ps cnt s in
  exists d, trace s' = d ++ trace s /\ Forall (sends_to bot) d.
Proof.
  revert cnt s. induction ps as [| p ps IH]; intros cnt s; cbn [loop001].
  - exists []. split; [reflexivity | constructor].
  - unfold bind. pose proof (process001_urls w bot p cnt s) as Hp.
    destruct (process001 w bot p cnt s) as [[c | e] s1].
    + destruct Hp as (d1 & Ht1 & Hd1).
      specialize (IH c s1). destruct (loop001 w bot ps c s1) as [r2 s2].
      destruct IH as (d2 & Ht2 & Hd2).
      exists (d2 ++ d1). rewrite Ht2, Ht1, app_assoc.
      split; [reflexivity | apply Forall_app; split; assumption].
    + exact Hp.
Qed.

Lemma loop000_urls (w : world) (bot : jsval) (ps : list post) (cnt : nat) (s : state) :
  let '(r, s') := loop000 w bot ps cnt s in
  exists d, trace s' = d ++ trace s /\ Forall (sends_to bot) d.
Proof.
  revert cnt s. induction ps as [| p ps IH]; intros cnt s; cbn [loop000].
  - exists []. split; [reflexivity | constructor].
  - unfold bind. pose proof (process000_urls w bot p cnt s) as Hp.
    destruct (process000 w bot p cnt s) as [[c | e] s1].
    + destruct Hp as (d1 & Ht1 & Hd1).
      specialize (IH c s1). destruct (loop000 w bot ps c s1) as [r2 s2].
      destruct IH as (d2 & Ht2 & Hd2).
      exists (d2 ++ d1). rewrite Ht2, Ht1, app_assoc.
      split; [reflexivity | apply Forall_app; split; assumption].
    + exact Hp.
Qed.

Lemma js_or_filled (x : string) (v : jsval) :
  String.eqb x EmptyString = false -> js_or (JStr x) v = JStr x.
Proof. intros H. unfold js_or. cbn [truthy]. rewrite H. reflexivity. Qed.

(** The values a filled dashboard form sends override whatever is stored:
    both handlers fetch Blogger with the form's blog id and API key, and
    every Telegram call they make goes to the form's bot token. *)
Theorem form_values_override_settings (w : world) (s : state) (f : form_data)
  (Hf : form_filled f = true) :
  (exists d, trace (snd (sync001 w (request_of_form f) s)) =
      d ++ EFetchBlogger (blogger_url (JStr (BLOGGER_BLOG_ID f)) (JStr (BLOGGER_API_KEY f)))
        :: trace s /\ Forall (sends_to (JStr (TELEGRAM_BOT_TOKEN f))) d) /\
  (exists d, trace (snd (sync000 w (request_of_form f) s)) =
      d ++ EFetchBlogger (blogger_url (JStr (BLOGGER_BLOG_ID f)) (JStr (BLOGGER_API_KEY f)))
        :: trace s /\ Forall (sends_to (JStr (TELEGRAM_BOT_TOKEN f))) d).
Proof.
  unfold form_filled in Hf. repeat rewrite andb_true_iff in Hf.
  destruct Hf as (((H1 & H2) & H3) & H4). apply negb_true_iff in H1, H2, H3, H4.
  unfold sync001, sync000, request_of_form, try_catch, bind, fetch_blogger, emit, throw, ret.
  cbn [r_api_key r_blog_id r_bot_token r_chat_id].
  rewrite !(js_or_filled _ _ H1), !(js_or_filled _ _ H2), !(js_or_filled _ _ H3),
    !(js_or_filled _ _ H4).
  cbn [truthy]. rewrite H1, H2, H3, H4. cbn -[firstn loop001 loop000 blogger_url js_get js_str].
  split.
  - destruct (w_blogger w) as [[data |] |];
      cbn -[firstn loop001 loop000 blogger_url js_get js_str];
      try (exists [ELog "Global Sync Error: fetch failed"]; split; [reflexivity | repeat constructor]);
      try (exists [ELog "Global Sync Error: Unexpected token in JSON"];
           split; [reflexivity | repeat constructor]).
    destruct (truthy (b_error data)); cbn -[firstn loop001 blogger_url js_get js_str];
      [exists []; split; [reflexivity | constructor] |].
    destruct (b_items data) as [items |]; cbn -[firstn loop001 blogger_url js_get js_str];
      [| exists []; split; [reflexivity | constructor]].
    use_loop loop001 loop001_urls.
    destruct HL as (d & Ht & Hd). destruct r1; cbn -[blogger_url]; rewrite Ht.
    + exists d. split; [reflexivity | exact Hd].
    + eexists (ELog _ :: d). split; [reflexivity | constructor; [exact I | exact Hd]].
  - destruct (w_blogger w) as [[data |] |];
      cbn -[firstn loop001 loop000 blogger_url js_get js_str];
      try (exists [ELog "Sync Error: fetch failed"]; split; [reflexivity | repeat constructor]);
      try (exists [ELog "Sync Error: Unexpected token in JSON"];
           split; [reflexivity | repeat constructor]).
    destruct (b_items data) as [items |]; cbn -[loop000 blogger_url js_get js_str];
      [| exists []; split; [reflexivity | constructor]].
    use_loop loop000 loop000_urls.
    destruct HL as (d & Ht & Hd). destruct r1; cbn -[blogger_url]; rewrite Ht.
    + exists d. split; [reflexivity | exact Hd].
    + eexists (ELog _ :: d). split; [reflexivity | constructor; [exact I | exact Hd]].
Qed.

(** *** The dashboard *)

(** [handleSync] with an incomplete form only shows an error: it neither
    posts a request nor touches [syncing].  With a filled form it sets
    [syncing], posts the form's values exactly once, and clears [syncing]
    as its last step whatever the server answers (the [finally] block). *)
Theorem handleSync_guard_and_reset (server : request -> option response) (f : form_data) :
  (form_filled f = false ->
     handleSync server f =
       [SetMessage {| m_text := JStr "Please fill in all configuration fields first.";
                      m_type := error |}]) /\
  (form_filled f = true ->
     exists mid, handleSync server f = [SetSyncing true] ++ mid ++ [SetSyncing false] /\
       (forall b, ~ In (SetSyncing b) mid) /\
       (forall body, In (PostSync body) mid <-> body = request_of_form f)).
Proof.
  unfold handleSync. split; intros Hf; rewrite Hf; cbn [negb]; [reflexivity |].
  cbn [app].
  match goal with
  | |- exists mid, _ :: ?b :: ?c :: (?M ++ _) = _ /\ _ => exists (b :: c :: M)
  end.
  split.
  - reflexivity.
  - destruct (server (request_of_form f)) as [r |];
      [destruct (res_ok r); [destruct (js_gt0 (js_get (JObj (rbody r)) "synced")) |] |];
      cbn; split;
      try (intros b H; repeat (destruct H as [H | H]; [discriminate H |]); exact H);
      intros body; split;
      try (intros H; repeat (destruct H as [H | H]; [try discriminate H; injection H as <-; reflexivity |]);
           contradiction);
      intros ->; right; left; reflexivity.
Qed.

Lemma sync001_shape (w : world) (req : request) (s : state) :
  exists resp, fst (sync001 w req s) = Ok resp /\
    (res_ok resp = false \/
     rbody resp = [("message", JStr "No posts found"); ("synced", JNum 0)] \/
     exists n, completed resp n).
Proof.
  unfold sync001, try_catch, bind, fetch_blogger, emit, throw, ret.
  cbn -[firstn loop001 blogger_url js_get js_str].
  split_matches; cbn -[firstn loop001 blogger_url js_get js_str];
    try (eexists; split; [reflexivity | left; reflexivity]);
    try (eexists; split; [reflexivity | right; left; reflexivity]).
  match goal with
  | |- context [loop001 ?a ?b ?c ?d ?e] => destruct (loop001 a b c d e) as [[c1 | e1] s1]
  end; cbn; eexists; split; try reflexivity;
    first [left; reflexivity | right; right; eexists; split; reflexivity].
Qed.

Lemma sync000_shape (w : world) (req : request) (s : state) :
  exists resp, fst (sync000 w req s) = Ok resp /\
    (res_ok resp = false \/
     rbody resp = [("message", JStr "No posts found"); ("synced", JNum 0)] \/
     exists n, completed resp n).
Proof.
  unfold sync000, try_catch, bind, fetch_blogger, emit, throw, ret.
  cbn -[loop000 blogger_url].
  split_matches; cbn -[loop000 blogger_url];
    try (eexists; split; [reflexivity | left; reflexivity]);
    try (eexists; split; [reflexivity | right; left; reflexivity]).
  match goal with
  | |- context [loop000 ?a ?b ?c ?d ?e] => destruct (loop000 a b c d e) as [[c1 | e1] s1]
  end; cbn; eexists; split; try reflexivity;
    first [left; reflexivity | right; right; eexists; split; reflexivity].
Qed.

Lemma handleSync_completed (server : request -> option response) (f : form_data)
  (k : nat) (resp : response) :
  form_filled f = true -> server (request_of_form f) = Some resp ->
  completed resp (Z.of_nat k) ->
  handleSync server f =
    [SetSyncing true;
     SetMessage {| m_text := JStr "Checking for new posts..."; m_type := info |};
     PostSync (request_of_form f); SetMessage (sync_message k); FetchStatus;
     SetSyncing false].
Proof.
  intros Hf Hs (Hst & Hb). unfold handleSync. rewrite Hf, Hs. cbn [negb].
  unfold res_ok. rewrite Hst, Hb. cbn -[js_str Z.of_nat].
  destruct k as [| k]; reflexivity.
Qed.

Lemma handleSync_success (server : request -> option response) (f : form_data)
  (m : ui_message) (resp : response) :
  server (request_of_form f) = Some resp ->
  (res_ok resp = false \/
   rbody resp = [("message", JStr "No posts found"); ("synced", JNum 0)] \/
   exists n, completed resp n) ->
  In (SetMessage m) (handleSync server f) -> m_type m = success ->
  exists n, completed resp n /\ (0 < n)%Z /\
    m = {| m_text := JStr ("Sync complete! " ++ js_str (JNum n)
                           ++ " new posts sent to Telegram.")%string; m_type := success |}.
Proof.
  intros Hs Hshape Hin Hm. unfold handleSync in Hin. rewrite Hs in Hin.
  destruct (form_filled f); cbn [negb] in Hin.
  2: { destruct Hin as [Hin | []]. injection Hin as <-. discriminate. }
  destruct Hshape as [Hok | [Hb | (n & Hc)]].
  - rewrite Hok in Hin. cbn in Hin.
    repeat (destruct Hin as [Hin | Hin]; [try discriminate Hin; injection Hin as <-;
                                          discriminate Hm |]); contradiction.
  - rewrite Hb in Hin. destruct (res_ok resp); cbn in Hin;
    repeat (destruct Hin as [Hin | Hin]; [try discriminate Hin; injection Hin as <-;
                                          discriminate Hm |]); contradiction.
  - exists n. split; [exact Hc |]. destruct Hc as (Hst & Hb).
    unfold res_ok in Hin. rewrite Hst, Hb in Hin. cbn -[js_str] in Hin.
    destruct (0 <? n)%Z eqn:Hn; cbn -[js_str] in Hin.
    + split; [apply Z.ltb_lt; exact Hn |].
      repeat (destruct Hin as [Hin | Hin];
              [try discriminate Hin; injection Hin as <-; try discriminate Hm; try reflexivity |]);
        contradiction.
    + repeat (destruct Hin as [Hin | Hin]; [try discriminate Hin; injection Hin as <-;
                                            discriminate Hm |]); contradiction.
Qed.

(** Whenever the dashboard reports [Sync complete! N new posts sent to
    Telegram.], [N] is positive and is exactly the number of rows the cycle
    added to [synced_posts], in both servers. *)
Theorem success_message_counts_recorded_posts (w : world) (s : state) (f : form_data)
  (m : ui_message) :
  (In (SetMessage m) (handleSync (serve sync001 w s) f) -> m_type m = success ->
     exists k, 0 < k /\ m = sync_message k /\
       List.length (ledger (snd (sync001 w (request_of_form f) s))) = k + List.length (ledger s)) /\
  (In (SetMessage m) (handleSync (serve sync000 w s) f) -> m_type m = success ->
     exists k, 0 < k /\ m = sync_message k /\
       List.length (ledger (snd (sync000 w (request_of_form f) s))) = k + List.length (ledger s)).
Proof.
  split; intros Hin Hm.
  - destruct (sync001_shape w (request_of_form f) s) as (resp & Hr & Hshape).
    pose proof (sync001_step w (request_of_form f) s) as Hstep.
    assert (Hs : serve sync001 w s (request_of_form f) = Some resp)
      by (unfold serve; rewrite Hr; reflexivity).
    destruct (handleSync_success _ f m resp Hs Hshape Hin Hm) as (n & Hc & Hpos & ->).
    destruct (sync001 w (request_of_form f) s) as [r s']. cbn [fst snd] in *.
    destruct Hstep as (d & _ & Hl & _ & _ & resp' & Hr' & Hn).
    rewrite Hr in Hr'. injection Hr' as <-.
    destruct (Hn n Hc) as (_ & ->). exists (List.length (inserts d)).
    split; [lia |]. split.
    + unfold sync_message. destruct (Nat.ltb_spec 0 (List.length (inserts d))); [reflexivity | lia].
    + rewrite Hl, length_app. reflexivity.
  - destruct (sync000_shape w (request_of_form f) s) as (resp & Hr & Hshape).
    pose proof (sync000_step w (request_of_form f) s) as Hstep.
    assert (Hs : serve sync000 w s (request_of_form f) = Some resp)
      by (unfold serve; rewrite Hr; reflexivity).
    destruct (handleSync_success _ f m resp Hs Hshape Hin Hm) as (n & Hc & Hpos & ->).
    destruct (sync000 w (request_of_form f) s) as [r s']. cbn [fst snd] in *.
    destruct Hstep as (d & _ & Hl & _ & _ & resp' & Hr' & Hn).
    rewrite Hr in Hr'. injection Hr' as <-.
    destruct (Hn n Hc) as (_ & ->). exists (List.length (inserts d)).
    split; [lia |]. split.
    + unfold sync_message. destruct (Nat.ltb_spec 0 (List.length (inserts d))); [reflexivity | lia].
    + rewrite Hl, length_app. reflexivity.
Qed.

(** With a filled form, a [part_001] server whose Blogger reply has [items]
    and no [error] makes the dashboard show [Sync complete! N new posts
    sent to Telegram.] with [N] the number of rows added to
    [synced_posts], or [No new posts found.] when none was added; it then
    refreshes the status and clears [syncing]. *)
Theorem dashboard_reports_part001_cycle (w : world) (s : state) (f : form_data)
  (data : blog_data) (l : list post)
  (Hf : form_filled f = true) (Hb : w_blogger w = Some (Some data))
  (He : truthy (b_error data) = false) (Hi : b_items data = Some l) :
  handleSync (serve sync001 w s) f =
    [SetSyncing true;
     SetMessage {| m_text := JStr "Checking for new posts..."; m_type := info |};
     PostSync (request_of_form f);
     SetMessage (sync_message (List.length (ledger (snd (sync001 w (request_of_form f) s)))
                               - List.length (ledger s)));
     FetchStatus; SetSyncing false].
Proof.
  assert (Hcfg : config_present w (request_of_form f)).
  { unfold form_filled in Hf. repeat rewrite andb_true_iff in Hf.
    destruct Hf as (((H1 & H2) & H3) & H4). apply negb_true_iff in H1, H2, H3, H4.
    unfold config_present, request_of_form. cbn [r_api_key r_blog_id r_bot_token r_chat_id].
    rewrite !js_or_filled by assumption. cbn [truthy].
    rewrite H1, H2, H3, H4. repeat split. }
  pose proof (sync001_items w (request_of_form f) s data l Hcfg Hb He Hi) as H.
  destruct (sync001 w (request_of_form f) s) as [r s'] eqn:Hsync.
  destruct H as (d & Hl & Hr). cbn [snd].
  rewrite Hl, length_app, Nat.add_sub.
  apply (handleSync_completed _ f _ (mk_resp 200 [("message", JStr "Sync complete");
      ("synced", JNum (Z.of_nat (List.length (inserts d))))])).
  - exact Hf.
  - unfold serve. rewrite Hsync, Hr. reflexivity.
  - split; reflexivity.
Qed.

(** *** Gemini failures in [part_000] *)

(** In [part_000] a Gemini failure never stops a new post that has
    [content]: when the call throws, the Telegram call right after it
    carries [Error extracting details.] as the post text (right after the
    [Gemini Error] log), and when Gemini
    answers an empty text it carries [Failed to extract details.]. *)
Theorem gemini_failure_still_posted (w : world) (bot : jsval) (p : post) (cnt : nat)
  (s : state) (c : string)
  (Hnew : mem (p_id p) (ledger s) = false) (Hc : p_content p = Some c) :
  (w_gemini w (S (List.length (trace s))) = None ->
     exists ev url img resp,
       trace (snd (process000 w bot p cnt s)) =
         ev ++ [ESend (p_id p) url (full_message "Error extracting details." p) img resp;
                ELog "Gemini Error"; EGemini; ECheck (p_id p)] ++ trace s) /\
  (w_gemini w (S (List.length (trace s))) = Some EmptyString ->
     exists ev url img resp,
       trace (snd (process000 w bot p cnt s)) =
         ev ++ [ESend (p_id p) url (full_message "Failed to extract details." p) img resp;
                EGemini; ECheck (p_id p)] ++ trace s).
Proof.
  unfold process000, extractMovieDetails000, bind, db_exists, resolve_image,
    fetch_tg, db_insert, emit, ret, throw.
  cbn -[full_message tg_photo_url tg_message_url mem img_match].
  rewrite Hnew. cbn -[full_message tg_photo_url tg_message_url mem img_match].
  split; intros Hg;
    destruct (first_image p) as [| | | | u |];
    try destruct (String.eqb u EmptyString);
    rewrite ?Hc; cbn -[full_message tg_photo_url tg_message_url mem img_match];
    rewrite Hg; cbn -[full_message tg_photo_url tg_message_url mem img_match];
    split_matches; cbn -[full_message tg_photo_url tg_message_url mem img_match];
    first [ exists []; do 3 eexists; reflexivity
          | eexists [EInsert _]; do 3 eexists; reflexivity ].
Qed.

(** *** The [PRIMARY KEY] of [synced_posts] *)


Lemma process000_not_unique (w : world) (bot : jsval) (p : post) (cnt : nat)
  (s : state) (e : string) (s' : state) :
  process000 w bot p cnt s = (Exc e, s') -> e <> unique_error.
Proof.
  unfold process000, extractMovieDetails000, bind, db_exists, resolve_image,
    fetch_tg, db_insert, emit, ret, throw.
  unfold unique_error.
  cbn. split_matches; cbn in *; intros Heq; try discriminate;
    injection Heq as <- _; try discriminate; unfold mem in *; congruence.
Qed.

Lemma loop000_not_unique (w : world) (bot : jsval) (ps : list post) (cnt : nat)
  (s : state) (e : string) (s' : state) :
  loop000 w bot ps cnt s = (Exc e, s') -> e <> unique_error.
Proof.
  revert cnt s. induction ps as [| p ps IH]; intros cnt s; cbn [loop000];
    unfold ret, bind; [discriminate |].
  destruct (process000 w bot p cnt s) as [[c | e'] s1] eqn:Hp.
  - apply IH.
  - intros Heq. injection Heq as <- _. exact (process000_not_unique _ _ _ _ _ _ _ Hp).
Qed.

(** The check-then-insert of both loops never trips the [PRIMARY KEY] of
    [synced_posts]: the [part_001] loop body never raises the [UNIQUE]
    error, and the [part_000] handler never answers 500 with it. *)
Theorem primary_key_never_violated (w : world) (bot : jsval) (p : post) (cnt : nat)
  (req : request) (s : state) :
  (forall e s', process_body001 w bot p cnt s = (Exc e, s') -> e <> unique_error) /\
  fst (sync000 w req s) <> Ok (mk_resp 500 [("error", JStr unique_error)]).
Proof.
  split.
  - intros e s'.
    unfold process_body001, bind, db_exists, resolve_image, fetch_tg, db_insert,
      tg_json_body, emit, ret, throw.
    unfold unique_error.
    cbn. split_matches; cbn in *; intros Heq; try discriminate;
      injection Heq as <- _; try discriminate; unfold mem in *; congruence.
  - unfold sync000, try_catch, bind, fetch_blogger, emit, throw, ret.
    cbn -[loop000 blogger_url]. split_matches; cbn -[loop000 blogger_url]; try discriminate.
    match goal with
    | |- context [loop000 ?a ?b ?c ?d ?e] =>
        pose proof (loop000_not_unique a b c d e) as Hn;
        destruct (loop000 a b c d e) as [[c1 | e1] s1]
    end; cbn; [discriminate |].
    intros Heq. injection Heq as Heq. exact (Hn e1 s1 eq_refl Heq).
Qed.

(** *** Witnesses *)

Lemma img_match_capture_witness :
  img_match sample_content = Some "https://img.example/a.jpg" /\
  ("https://img.example/a.jpg" <> EmptyString /\
   all_chars (fun c => negb (is_quote_or_gt c)) "https://img.example/a.jpg" = true).
Proof.
  assert (H : img_match sample_content = Some "https://img.example/a.jpg")
    by (vm_compute; reflexivity).
  split; [exact H | exact (img_match_capture _ _ H)].
Defined.

Lemma first_image_wins_part001_witness :
  process001 (mk_world cfg_settings (feed []) (tg_always true)) (JStr "tok")
    image_only_post 0 empty_state =
    (Ok 1,
     {| ledger := ["p9"];
        trace := [EInsert "p9";
                  ESend "p9" (tg_photo_url (JStr "tok"))
                    (full_message (extractMovieDetails001 image_only_post) image_only_post)
                    (Some "https://img.example/p9.jpg") (Some tg_accepted);
                  ECheck "p9"] |}).
Proof.
  exact (first_image_wins_part001 (mk_world cfg_settings (feed []) (tg_always true))
           (JStr "tok") image_only_post 0 empty_state "https://img.example/p9.jpg" []
           tg_accepted eq_refl eq_refl eq_refl eq_refl eq_refl).
Defined.

Lemma sendToTelegram_needs_credentials_witness :
  sendToTelegram unconfigured_world "New film" "https://blog.example/p1"
    (Some "https://img.example/p1.jpg") empty_state =
    (Exc "Telegram credentials missing", empty_state).
Proof.
  exact (sendToTelegram_needs_credentials unconfigured_world "New film"
           "https://blog.example/p1" (Some "https://img.example/p1.jpg") empty_state eq_refl).
Defined.

Lemma blogger_error_stops_part001_witness :
  config_present error_world no_override /\
  sync001 error_world no_override empty_state =
    (Ok (mk_resp 400 [("error", JStr "Blogger API Error: Unknown error")]),
     {| ledger := [];
        trace := [EFetchBlogger (blogger_url (JStr "42") (JStr "key"))] |}).
Proof.
  assert (H : config_present error_world no_override) by (repeat split).
  split; [exact H |].
  rewrite (blogger_error_stops_part001 error_world no_override empty_state
             error_and_items H eq_refl eq_refl).
  vm_compute. reflexivity.
Defined.

Lemma form_values_override_settings_witness :
  form_filled sample_form = true /\
  (exists d, trace (snd (sync001 c2_world (request_of_form sample_form) empty_state)) =
      d ++ EFetchBlogger (blogger_url (JStr "7") (JStr "formkey")) :: [] /\
      Forall (sends_to (JStr "formtok")) d) /\
  (exists d, trace (snd (sync000 c2_world (request_of_form sample_form) empty_state)) =
      d ++ EFetchBlogger (blogger_url (JStr "7") (JStr "formkey")) :: [] /\
      Forall (sends_to (JStr "formtok")) d).
Proof.
  split; [reflexivity |].
  exact (form_values_override_settings c2_world empty_state sample_form eq_refl).
Defined.

Lemma dashboard_reports_part001_cycle_witness :
  handleSync (serve sync001 c5_world empty_state) sample_form =
    [SetSyncing true;
     SetMessage {| m_text := JStr "Checking for new posts..."; m_type := info |};
     PostSync (request_of_form sample_form);
     SetMessage (sync_message
       (List.length (ledger (snd (sync001 c5_world (request_of_form sample_form) empty_state)))
        - List.length (ledger empty_state)));
     FetchStatus; SetSyncing false] /\
  List.length (ledger (snd (sync001 c5_world (request_of_form sample_form) empty_state))) = 1.
Proof.
  split.
  - exact (dashboard_reports_part001_cycle c5_world empty_state sample_form one_post_feed
             [photo_post "p1"] eq_refl eq_refl eq_refl eq_refl).
  - vm_compute. reflexivity.
Defined.

Lemma gemini_failure_still_posted_witness :
  w_gemini gemini_down_world 1 = None /\
  exists ev url img resp,
    trace (snd (process000 gemini_down_world (JStr "tok") (photo_post "p1") 0 empty_state)) =
      ev ++ [ESend "p1" url (full_message "Error extracting details." (photo_post "p1")) img resp;
             ELog "Gemini Error"; EGemini; ECheck "p1"] ++ [].
Proof.
  split; [reflexivity |].
  exact (proj1 (gemini_failure_still_posted gemini_down_world (JStr "tok") (photo_post "p1")
                  0 empty_state "<p>Plot</p>" eq_refl eq_refl) eq_refl).
Defined.
